(** * The neural-network genome of js/utils/NeuralNetwork.js

    A shallow embedding of the [NeuralNetwork] class: its activation
    functions, the two forward passes, the genetic operators (mutate,
    crossover, difference, prune) and the JSON record conversion, followed by
    the properties the specification states about them.

    JavaScript numbers are IEEE 754 binary64 values; they are modelled by
    Rocq's primitive [float], whose operations round exactly as the
    JavaScript ones do.  [Math.exp] and [Math.random] are supplied by the
    engine and enter as section variables. *)

From Stdlib Require Import ZArith String List Bool Lia Floats.
Import ListNotations.

Set Warnings "-inexact-float".

(** ** The JavaScript runtime the class relies on *)

Module Js.

(** What a [throw] carries: the engine's own [TypeError] (a property read
    on [undefined], a call of a non-function) or an [Error] built by the
    program with its message. *)
Inductive error : Type :=
| TypeError
| Error (message : string).

(** The completion of a call: a value, or an exception. *)
Inductive outcome (A : Type) : Type :=
| Returned (a : A)
| Thrown (e : error).
Arguments Returned {A} a.
Arguments Thrown {A} e.

(** Computations over a mutable cell of type [St] that may throw.  The cell
    is, by use, the number of [Math.random] draws made so far, the running
    [prunedCount], or the pair [totalDiff], [totalElements]. *)
Definition M (St A : Type) : Type := St -> outcome (A * St).

Definition ret {St A} (a : A) : M St A := fun s => Returned (a, s).

Definition bind {St A B} (c : M St A) (k : A -> M St B) : M St B :=
  fun s => match c s with
           | Returned (a, s') => k a s'
           | Thrown e => Thrown e
           end.

Definition throw {St A} (e : error) : M St A := fun _ => Thrown e.

Definition get {St} : M St St := fun s => Returned (s, s).

Definition put {St} (s : St) : M St unit := fun _ => Returned (tt, s).

(** [for (let i = i0; i < i0 + l.length; i++) body(i, l[i - i0])], the
    results collected in index order.  An in-place update of every element
    of an array is the array of the results. *)
Fixpoint forEach {St A B} (body : nat -> A -> M St B) (i : nat) (l : list A)
  : M St (list B) :=
  match l with
  | [] => ret []
  | a :: l' =>
      bind (body i a) (fun b =>
      bind (forEach body (S i) l') (fun bs =>
      ret (b :: bs)))
  end.

(** A number read at an index of an array.  Past the end JavaScript yields
    [undefined]; every use this program makes of such a value is an
    arithmetic operation, a comparison, [Math.abs] or [Math.max], each of
    which turns [undefined] into [NaN], so the read is modelled by [nan]. *)
Definition elem (l : list float) (k : nat) : float := nth k l nan.

(** [Math.max(a, b)]: [NaN] if either argument is [NaN]; [+0] is larger
    than [-0]. *)
Definition Math_max (a b : float) : float :=
  if (is_nan a || is_nan b)%bool then nan
  else if (a <? b)%float then b
  else if (b <? a)%float then a
  else if (is_zero a && negb (get_sign a))%bool then a
  else b.

(** [Math.abs]. *)
Definition Math_abs (x : float) : float := abs x.

(** The properties every object literal inherits from [Object.prototype].
    A lookup [obj[key]] with one of these keys on an object that has no own
    property of that name finds the inherited member, not [undefined]. *)
Definition Object_prototype_keys : list string :=
  [ "constructor"; "hasOwnProperty"; "isPrototypeOf";
    "propertyIsEnumerable"; "toLocaleString"; "toString"; "valueOf";
    "__proto__"; "__defineGetter__"; "__defineSetter__";
    "__lookupGetter__"; "__lookupSetter__" ]%string.

Definition inherited (key : string) : bool :=
  existsb (String.eqb key) Object_prototype_keys.

(** An integer as a number (exact below 2^53 in magnitude). *)
Definition of_Z (z : Z) : float :=
  match z with
  | Z0 => 0%float
  | Zpos _ => of_uint63 (Uint63.of_Z z)
  | Zneg _ => (- of_uint63 (Uint63.of_Z (- z)))%float
  end.

End Js.

Import Js.

Declare Scope js_scope.
Delimit Scope js_scope with js.
Notation "x <- c ;; k" := (bind c (fun x => k))
  (at level 61, c at next level, right associativity) : js_scope.
Notation "c ;;; k" := (bind c (fun _ => k))
  (at level 61, right associativity) : js_scope.

(** ** Function values *)

(** The four static methods of the class. *)
Inductive StaticMethod : Type := Sigmoid | Relu | LeakyRelu | Tanh.

(** What the [activation] property of a network can hold: one of the static
    methods, a member of [Object.prototype] (which the name lookup of
    [fromJSON] can reach), or some other function on numbers passed to the
    constructor. *)
Inductive Callable : Type :=
| Static (m : StaticMethod)
| Inherited (key : string)
| Custom (f : float -> float).

(** ** Activation functions *)

Section Activations.

(** [Math.exp]. *)
Variable Math_exp : float -> float.

Local Open Scope float_scope.

Definition sigmoid (x : float) : float :=
  if x <? -15 then 0
  else if 15 <? x then 1
  else 1 / (1 + Math_exp (- x)).

Definition relu (x : float) : float := Math_max 0 x.

(** [alpha] is [None] when the caller passes one argument; the default
    parameter value 0.01 then applies. *)
Definition leakyRelu (x : float) (alpha : option float) : float :=
  let alpha := match alpha with Some a => a | None => 0.01 end in
  if 0 <? x then x else alpha * x.

Definition tanh (x : float) : float :=
  if 10 <? x then 1
  else if x <? -10 then -1
  else
    let e2x := Math_exp (2 * x) in
    (e2x - 1) / (e2x + 1).

(** [this.activation(sum)].  A static method is applied to the one
    argument.  For a member of [Object.prototype] the receiver is the
    network and the result is given by the number it converts to:
    [Object(sum)] boxes [sum]; the three predicates answer [false]; the
    string and object results and [undefined] convert to [NaN];
    [__proto__] is not a function and the two definers reject a missing
    accessor, so those calls throw. *)
Definition call (f : Callable) (x : float) : outcome float :=
  match f with
  | Static Sigmoid => Returned (sigmoid x)
  | Static Relu => Returned (relu x)
  | Static LeakyRelu => Returned (leakyRelu x None)
  | Static Tanh => Returned (tanh x)
  | Custom g => Returned (g x)
  | Inherited key =>
      if String.eqb key "constructor"%string then Returned x
      else if existsb (String.eqb key)
                ["hasOwnProperty"; "isPrototypeOf"; "propertyIsEnumerable"]%string
      then Returned 0
      else if existsb (String.eqb key)
                ["toLocaleString"; "toString"; "valueOf";
                 "__lookupGetter__"; "__lookupSetter__"]%string
      then Returned nan
      else Thrown TypeError
  end.

End Activations.

(** ** The network object *)

(** The properties of a [NeuralNetwork] instance.  A layer size is an
    integer; nothing in the class keeps it positive.  An instance owns its
    arrays, which are therefore values here.  The property [layerOutputs],
    which the forward passes write and nothing reads, is the mutable cell of
    those passes. *)
Record NeuralNetwork : Type := {
  layers : list Z;
  activation : Callable;
  activationName : string;
  weights : list (list (list float));
  biases : list (list float);
  useOptimizedOperations : bool
}.

(** ** Forward evaluation *)

Section Forward.

Variable Math_exp : float -> float.

Local Open Scope float_scope.
Local Open Scope js_scope.

(** The cell of a forward pass: [this.layerOutputs]. *)
Definition Cache : Type := list (list float).

Definition lift {St A} (o : outcome A) : M St A :=
  fun s => match o with
           | Returned a => Returned (a, s)
           | Thrown e => Thrown e
           end.

(** [this.layerOutputs.push(outputs)]. *)
Definition push (outputs : list float) : M Cache unit :=
  fun cache => Returned (tt, (cache ++ [outputs])%list).

(** [for (let k = from; k < from + count; k++) sum += outputs[k] * w[k]]. *)
Definition accumulate (outputs w : list float) (from count : nat)
    (sum : float) : float :=
  fold_left (fun sum k => sum + elem outputs k * elem w k)
            (seq from count) sum.

(** The unrolled loop of [feedForwardOptimized]:
    [for (let k = 0; k < prevLayerSize; k += 4)], a block of four products
    added to [sum] as one term when [k + 3 < prevLayerSize], the remaining
    elements one by one otherwise. *)
Definition accumulateUnrolled (prevLayerSize : nat) (outputs w : list float)
    (sum : float) : float :=
  fold_left
    (fun sum k =>
       if (k + 3 <? prevLayerSize)%nat then
         sum + (elem outputs k * elem w k
                + elem outputs (k + 1) * elem w (k + 1)
                + elem outputs (k + 2) * elem w (k + 2)
                + elem outputs (k + 3) * elem w (k + 3))
       else accumulate outputs w k (prevLayerSize - k) sum)
    (map (Nat.mul 4) (seq 0 ((prevLayerSize + 3) / 4)))
    sum.

(** One layer of the straightforward pass.  [b] is [this.biases[i]],
    [None] when the array has no such entry: reading [this.biases[i][j]]
    then throws. *)
Definition layerStraightforward (act : Callable) (b : option (list float))
    (W : list (list float)) (outputs : list float) : M Cache (list float) :=
  forEach
    (fun j w =>
       match b with
       | None => throw TypeError
       | Some bi =>
           lift (call Math_exp act
                   (accumulate outputs w 0 (length w) (elem bi j)))
       end)
    0%nat W.

(** One layer of the optimized pass.  [prevLayerSize] is the length of the
    first row, [this.weights[i][0].length], which throws on a layer
    without rows. *)
Definition layerOptimized (act : Callable) (b : option (list float))
    (W : list (list float)) (outputs : list float) : M Cache (list float) :=
  match W with
  | [] => throw TypeError
  | w0 :: _ =>
      let prevLayerSize := length w0 in
      forEach
        (fun j w =>
           match b with
           | None => throw TypeError
           | Some bi =>
               lift (call Math_exp act
                       (accumulateUnrolled prevLayerSize outputs w (elem bi j)))
           end)
        0%nat W
  end.

(** [for (let i = ...; i < this.weights.length; i++)]: [ws] is what is left
    of [this.weights] from index [i] on. *)
Fixpoint forwardLayers
    (layer : Callable -> option (list float) -> list (list float) ->
             list float -> M Cache (list float))
    (act : Callable) (bs : list (list float)) (i : nat)
    (ws : list (list (list float))) (outputs : list float)
  : M Cache (list float) :=
  match ws with
  | [] => ret outputs
  | W :: ws' =>
      layerOutputs <- layer act (nth_error bs i) W outputs ;;
      push layerOutputs ;;;
      forwardLayers layer act bs (S i) ws' layerOutputs
  end.

Definition feedForwardOptimized (this : NeuralNetwork) (inputs : list float)
  : M Cache (list float) :=
  put [inputs] ;;;
  forwardLayers layerOptimized (activation this) (biases this) 0
                (weights this) inputs.

Definition feedForward (this : NeuralNetwork) (inputs : list float)
  : M Cache (list float) :=
  if useOptimizedOperations this then feedForwardOptimized this inputs
  else
    put [inputs] ;;;
    forwardLayers layerStraightforward (activation this) (biases this) 0
                  (weights this) inputs.

End Forward.

(** ** Construction, genetic operators and JSON records *)

(** The [options] argument of the constructor; [None] is an absent
    property. *)
Record Options : Type := {
  o_layers : option (list Z);
  o_activation : option Callable;
  o_activationName : option string;
  o_weights : option (list (list (list float)));
  o_biases : option (list (list float))
}.

(** The record [toJSON] returns and [fromJSON] reads. *)
Record Json : Type := {
  j_layers : list Z;
  j_activationName : string;
  j_weights : list (list (list float));
  j_biases : list (list float)
}.

(** [s || d] on strings: the empty string is falsy. *)
Definition or_string (s d : string) : string :=
  if String.eqb s EmptyString then d else s.

(** An optional value or its default: [x || d] where [x], when present, is
    an array or a function (both truthy), and the rule of a default
    parameter value, [x === undefined ? d : x]. *)
Definition or_default {A} (x : option A) (d : A) : A :=
  match x with Some a => a | None => d end.

(** The same network with other weights and biases. *)
Definition with_parameters (this : NeuralNetwork)
    (W : list (list (list float))) (B : list (list float)) : NeuralNetwork :=
  {| layers := layers this;
     activation := activation this;
     activationName := activationName this;
     weights := W;
     biases := B;
     useOptimizedOperations := useOptimizedOperations this |}.

(** [other.weights[i][j][k]] and [other.biases[i][j]], read with the indices
    of another network: a missing layer or row throws, a missing element is
    [undefined]. *)
Definition weightAt {St} (other : NeuralNetwork) (i j k : nat) : M St float :=
  match nth_error (weights other) i with
  | None => throw TypeError
  | Some Wi =>
      match nth_error Wi j with
      | None => throw TypeError
      | Some row => ret (elem row k)
      end
  end.

Definition biasAt {St} (other : NeuralNetwork) (i j : nat) : M St float :=
  match nth_error (biases other) i with
  | None => throw TypeError
  | Some bi => ret (elem bi j)
  end.

(** [this.layers[i] !== other.layers[i]] for no [i] below
    [this.layers.length], the two lengths being equal. *)
Fixpoint sameSizes (a b : list Z) : bool :=
  match a, b with
  | x :: a', y :: b' => Z.eqb x y && sameSizes a' b'
  | _, _ => true
  end.

Section Genetics.

(** [Math.random]: the value of the [n]-th call.  The cell of the
    operators below is the number of calls made so far. *)
Variable Math_random : nat -> float.

Local Open Scope float_scope.
Local Open Scope js_scope.

Definition random : M nat float :=
  fun n => Returned (Math_random n, S n).

(** One round of the outer loop of [initialize]: the rows and the biases
    of the neurons of a layer, each neuron drawing its weights and then
    its bias. *)
Definition initializeLayer (fanIn fanOut : Z)
  : M nat (list (list float) * list float) :=
  let weightScale := sqrt (2 / of_Z (fanIn + fanOut)) in
  neurons <-
    forEach
      (fun j _ =>
         neuronWeights <-
           forEach (fun k _ => r <- random ;; ret ((r * 2 - 1) * weightScale))
                   0%nat (seq 0 (Z.to_nat fanIn)) ;;
         r <- random ;;
         ret (neuronWeights, (r * 2 - 1) * 0.1))
      0%nat (seq 0 (Z.to_nat fanOut)) ;;
  ret (map fst neurons, map snd neurons).

(** The outer loop over the layer sizes that are left. *)
Fixpoint initializeLayers (sizes : list Z)
  : M nat (list (list (list float)) * list (list float)) :=
  match sizes with
  | fanIn :: ((fanOut :: _) as rest) =>
      layer <- initializeLayer fanIn fanOut ;;
      more <- initializeLayers rest ;;
      ret (fst layer :: fst more, snd layer :: snd more)
  | _ => ret ([], [])
  end.

Definition initialize (sizes : list Z)
  : M nat (list (list (list float)) * list (list float)) :=
  initializeLayers sizes.

Definition constructor (options : Options) : M nat NeuralNetwork :=
  let sizes := or_default (o_layers options) [3; 4; 2]%Z in
  let act := or_default (o_activation options) (Static Sigmoid) in
  let name := or_string (or_default (o_activationName options) EmptyString)
                        "sigmoid"%string in
  match o_weights options, o_biases options with
  | Some W, Some B =>
      ret {| layers := sizes; activation := act; activationName := name;
             weights := W; biases := B; useOptimizedOperations := true |}
  | _, _ =>
      WB <- initialize sizes ;;
      ret {| layers := sizes; activation := act; activationName := name;
             weights := fst WB; biases := snd WB;
             useOptimizedOperations := true |}
  end.

(** The body of both loops of [mutate] on one element. *)
Definition mutateElement (rate amount x : float) : M nat float :=
  r <- random ;;
  if r <? rate then
    d <- random ;;
    ret (x + (d * 2 - 1) * amount)
  else ret x.

Definition mutate (this : NeuralNetwork) (rate amount : option float)
  : M nat NeuralNetwork :=
  let rate := or_default rate 0.1 in
  let amount := or_default amount 0.5 in
  W <- forEach (fun i Wi =>
         forEach (fun j row =>
           forEach (fun k w => mutateElement rate amount w) 0%nat row)
         0%nat Wi)
       0%nat (weights this) ;;
  B <- forEach (fun i bi =>
         forEach (fun j b => mutateElement rate amount b) 0%nat bi)
       0%nat (biases this) ;;
  ret (with_parameters this W B).

Definition crossover (this other : NeuralNetwork) (crossoverRate : option float)
  : M nat NeuralNetwork :=
  let crossoverRate := or_default crossoverRate 0.5 in
  if negb (length (layers this) =? length (layers other))%nat then
    throw (Error "Cannot crossover networks with different architectures"%string)
  else if negb (sameSizes (layers this) (layers other)) then
    throw (Error "Cannot crossover networks with different layer sizes"%string)
  else
    newWeights <-
      forEach (fun i Wi =>
        forEach (fun j row =>
          forEach (fun k w =>
            r <- random ;;
            if r <? crossoverRate then ret w else weightAt other i j k)
          0%nat row)
        0%nat Wi)
      0%nat (weights this) ;;
    newBiases <-
      forEach (fun i bi =>
        forEach (fun j b =>
          r <- random ;;
          if r <? crossoverRate then ret b else biasAt other i j)
        0%nat bi)
      0%nat (biases this) ;;
    constructor {| o_layers := Some (layers this);
                   o_activation := Some (activation this);
                   o_activationName := Some (activationName this);
                   o_weights := Some newWeights;
                   o_biases := Some newBiases |}.

Definition toJSON (this : NeuralNetwork) : Json :=
  {| j_layers := layers this;
     j_activationName := activationName this;
     j_weights := weights this;
     j_biases := biases this |}.

(** [activationMap[key]]: the four own properties of the literal, then
    what the literal inherits; [None] is [undefined]. *)
Definition activationMap (key : string) : option Callable :=
  if String.eqb key "sigmoid"%string then Some (Static Sigmoid)
  else if String.eqb key "relu"%string then Some (Static Relu)
  else if String.eqb key "tanh"%string then Some (Static Tanh)
  else if String.eqb key "leakyRelu"%string then Some (Static LeakyRelu)
  else if inherited key then Some (Inherited key)
  else None.

Definition fromJSON (json : Json) : M nat NeuralNetwork :=
  constructor
    {| o_layers := Some (j_layers json);
       o_activation :=
         Some (or_default (activationMap (j_activationName json))
                          (Static Sigmoid));
       o_activationName := Some (or_string (j_activationName json) "sigmoid"%string);
       o_weights := Some (j_weights json);
       o_biases := Some (j_biases json) |}.

End Genetics.

Section Measures.

Local Open Scope float_scope.
Local Open Scope js_scope.

(** [totalDiff += d; totalElements++]. *)
Definition tally (d : float) : M (float * nat) unit :=
  fun s => Returned (tt, (fst s + d, S (snd s))).

Definition difference (this other : NeuralNetwork) : outcome float :=
  let loops : M (float * nat) unit :=
    forEach (fun i Wi =>
      forEach (fun j row =>
        forEach (fun k w =>
          x <- weightAt other i j k ;;
          tally (Math_abs (w - x)))
        0%nat row)
      0%nat Wi)
    0%nat (weights this) ;;;
    forEach (fun i bi =>
      forEach (fun j b =>
        x <- biasAt other i j ;;
        tally (Math_abs (b - x)))
      0%nat bi)
    0%nat (biases this) ;;;
    ret tt in
  match loops (0, 0%nat) with
  | Returned (_, (totalDiff, totalElements)) =>
      Returned (if (0 <? totalElements)%nat
                then totalDiff / of_Z (Z.of_nat totalElements)
                else 0)
  | Thrown e => Thrown e
  end.

(** The body of the loops of [prune] on one weight; the cell is
    [prunedCount]. *)
Definition pruneElement (threshold w : float) : M nat float :=
  if Math_abs w <? threshold then
    prunedCount <- get ;;
    put (S prunedCount) ;;;
    ret 0
  else ret w.

(** [prune] alters [this] and returns [prunedCount]: the result is the
    count with the network after the call. *)
Definition prune (this : NeuralNetwork) (threshold : option float)
  : outcome (nat * NeuralNetwork) :=
  let threshold := or_default threshold 0.01 in
  let loops : M nat (list (list (list float))) :=
    forEach (fun i Wi =>
      forEach (fun j row =>
        forEach (fun k w => pruneElement threshold w) 0%nat row)
      0%nat Wi)
    0%nat (weights this) in
  match loops 0%nat with
  | Returned (W, prunedCount) =>
      Returned (prunedCount, with_parameters this W (biases this))
  | Thrown e => Thrown e
  end.

End Measures.

(** ** Genomes *)

(** The invariant of a genome: one weight matrix and one bias vector per
    layer transition, [weights[i]] of shape [layers[i+1]] by [layers[i]] and
    [biases[i]] of length [layers[i+1]]. *)
Fixpoint shape_ok (sizes : list Z) (W : list (list (list float)))
    (B : list (list float)) : bool :=
  match sizes with
  | n0 :: ((n1 :: _) as rest) =>
      match W, B with
      | Wi :: W', bi :: B' =>
          (Z.of_nat (length Wi) =? n1)%Z
          && forallb (fun row => (Z.of_nat (length row) =? n0)%Z) Wi
          && (Z.of_nat (length bi) =? n1)%Z
          && shape_ok rest W' B'
      | _, _ => false
      end
  | _ =>
      match W, B with
      | [], [] => true
      | _, _ => false
      end
  end.

Definition well_formed (G : NeuralNetwork) : Prop :=
  shape_ok (layers G) (weights G) (biases G) = true.

(** A topology: at least two layers, every size positive. *)
Definition valid_topology (sizes : list Z) : bool :=
  (2 <=? length sizes)%nat && forallb (fun n => (0 <? n)%Z) sizes.

(** The activation is a function that returns on every number. *)
Definition activation_returns (Math_exp : float -> float) (f : Callable)
  : Prop :=
  forall x, exists y, call Math_exp f x = Returned y.

(** What [Math.random] promises: every draw is in [0, 1). *)
Definition unit_draws (Math_random : nat -> float) : Prop :=
  forall k, (0 <=? Math_random k)%float = true /\
            (Math_random k <? 1)%float = true.

(** The name recorded in a network is the key of its activation in the
    table of [fromJSON]. *)
Definition name_matches (G : NeuralNetwork) : Prop :=
  activationMap (activationName G) = Some (activation G).

(** Arrays of one shape, element values aside. *)
Definition same_shape {A B} : list A -> list B -> Prop :=
  Forall2 (fun _ _ => True).

(** The parameters of a genome in the order the loops of [difference] visit
    them: every weight, then every bias. *)
Definition parameters (G : NeuralNetwork) : list float :=
  concat (concat (weights G)) ++ concat (biases G).

(** The mean absolute element-wise difference as the specification words
    it: the absolute differences of the paired elements, summed from 0 in
    order and divided by their number; 0 when there is no element. *)
Definition mean_absolute_difference (xs ys : list float) : float :=
  let diffs := map (fun ab => Math_abs (fst ab - snd ab)%float) (combine xs ys) in
  if (0 <? length diffs)%nat
  then (fold_left add diffs 0 / of_Z (Z.of_nat (length diffs)))%float
  else 0%float.

(** One round of either inner loop of [difference] on the cell. *)
Definition tallied (s : float * nat) (ab : float * float) : float * nat :=
  ((fst s + Math_abs (fst ab - snd ab))%float, S (snd s)).

(** What the two layer functions share: on a layer that has a row and a bias
    vector they return one output per row and leave the cell alone. *)
Definition layer_returns (act : Callable)
    (layer : Callable -> option (list float) -> list (list float) ->
             list float -> M Cache (list float)) : Prop :=
  forall b W outputs cache, W <> [] ->
    exists out, layer act (Some b) W outputs cache = Returned (out, cache) /\
                length out = length W.

(** The network after [this.useOptimizedOperations = false], which sends
    [feedForward] down its own, straightforward loop. *)
Definition unoptimized (this : NeuralNetwork) : NeuralNetwork :=
  {| layers := layers this;
     activation := activation this;
     activationName := activationName this;
     weights := weights this;
     biases := biases this;
     useOptimizedOperations := false |}.

(** A layer all of whose rows have one length, below 4. *)
Definition narrow_layer (W : list (list float)) : Prop :=
  exists n0, (n0 < 4)%nat /\ W <> [] /\ Forall (fun row => length row = n0) W.

(** [prune] zeroes the weights that are [below] its threshold [t]; [pruned]
    is what it leaves in the place of a weight. *)
Definition below (t w : float) : bool := (Math_abs w <? t)%float.

Definition pruned (t w : float) : float := if below t w then 0%float else w.

(** [Indexed R i l bs]: the lists have one length and [R] relates the
    elements at each position, positions counted from [i]. *)
Inductive Indexed {A B} (R : nat -> A -> B -> Prop)
  : nat -> list A -> list B -> Prop :=
| Indexed_nil i : Indexed R i [] []
| Indexed_cons i a b l bs :
    R i a b -> Indexed R (S i) l bs -> Indexed R i (a :: l) (b :: bs).

(** ** Concrete networks and records *)

Module Examples.

Local Open Scope string_scope.

(** A source of draws inside [0, 1). *)
Definition halves : nat -> float := fun _ => 0.5%float.

(** An engine function standing for [Math.exp] where no activation of the
    example calls it. *)
Definition unused_exp : float -> float := fun _ => 1%float.

(** Topology [4, 1], relu; the bias is 2^53, where the spacing of binary64
    numbers is 2. *)
Definition wide : NeuralNetwork :=
  {| layers := [4; 1]%Z;
     activation := Static Relu;
     activationName := "relu";
     weights := [[[1; 1; 1; 1]]]%float;
     biases := [[9007199254740992]]%float;
     useOptimizedOperations := true |}.

(** [{ layers: [1, 1], activation: NeuralNetwork.relu, weights: [[[1]]],
    biases: [[0]] }]: the constructor's documented options, no
    [activationName] among them. *)
Definition relu_options : Options :=
  {| o_layers := Some [1; 1]%Z;
     o_activation := Some (Static Relu);
     o_activationName := None;
     o_weights := Some [[[1]]]%float;
     o_biases := Some [[0]]%float |}.

(** Topology [2, 1], relu. *)
Definition pair_in : NeuralNetwork :=
  {| layers := [2; 1]%Z;
     activation := Static Relu;
     activationName := "relu";
     weights := [[[1; 1]]]%float;
     biases := [[0]]%float;
     useOptimizedOperations := true |}.

(** Options that carry a topology only. *)
Definition only_layers (sizes : list Z) : Options :=
  {| o_layers := Some sizes;
     o_activation := None;
     o_activationName := None;
     o_weights := None;
     o_biases := None |}.

(** Topologies [1, 1] and [2, 1], sigmoid. *)
Definition narrow : NeuralNetwork :=
  {| layers := [1; 1]%Z;
     activation := Static Sigmoid;
     activationName := "sigmoid";
     weights := [[[1]]]%float;
     biases := [[0]]%float;
     useOptimizedOperations := true |}.

Definition broad : NeuralNetwork :=
  {| layers := [2; 1]%Z;
     activation := Static Sigmoid;
     activationName := "sigmoid";
     weights := [[[3; 7]]]%float;
     biases := [[1]]%float;
     useOptimizedOperations := true |}.

(** Topology [2, 1] with one weight below 0.01 in magnitude. *)
Definition sparse (w : float) : NeuralNetwork :=
  {| layers := [2; 1]%Z;
     activation := Static Sigmoid;
     activationName := "sigmoid";
     weights := [[[w; 7]]]%float;
     biases := [[0.001]]%float;
     useOptimizedOperations := true |}.

(** A record of topology [1, 1] under a given activation name. *)
Definition named (name : string) : Json :=
  {| j_layers := [1; 1]%Z;
     j_activationName := name;
     j_weights := [[[1]]]%float;
     j_biases := [[0]]%float |}.

(** Two networks of topology [2, 2, 1]. *)
Definition first_parent : NeuralNetwork :=
  {| layers := [2; 2; 1]%Z;
     activation := Static Tanh;
     activationName := "tanh";
     weights := [[[1; 2]; [3; 4]]; [[5; 6]]]%float;
     biases := [[0.5; 0.25]; [0.125]]%float;
     useOptimizedOperations := true |}.

Definition second_parent : NeuralNetwork :=
  {| layers := [2; 2; 1]%Z;
     activation := Static Sigmoid;
     activationName := "sigmoid";
     weights := [[[-1; -2]; [-3; -4]]; [[-5; -6]]]%float;
     biases := [[8; 16]; [32]]%float;
     useOptimizedOperations := true |}.

End Examples.

(** ** Copies, constructor arguments and the callers of the class *)

(** A value passed to [new NeuralNetwork(...)]: the class's callers pass an
    options object (js/utils/TestHarness.js) or, positionally, numbers, an
    array of sizes and a string (the [Simulation] class). *)
Inductive Argument : Type :=
| ArgUndefined
| ArgNumber (x : float)
| ArgString (s : string)
| ArgArray (sizes : list Z)
| ArgObject (options : Options).

(** The object literal with no property, the default of the parameter
    [options]. *)
Definition no_options : Options :=
  {| o_layers := None;
     o_activation := None;
     o_activationName := None;
     o_weights := None;
     o_biases := None |}.

(** What the constructor reads of its first argument: the properties of an
    object; nothing of a number, a string or an array, on which [layers],
    [activation], [activationName], [weights] and [biases] are all
    [undefined]; the default [{}] when the argument is [undefined]. *)
Definition options_of (argument : Argument) : Options :=
  match argument with
  | ArgObject options => options
  | _ => no_options
  end.

Section Copies.

Variable Math_random : nat -> float.

Local Open Scope js_scope.

(** [new NeuralNetwork(a0, a1, ...)]: the constructor has one parameter, the
    other arguments are dropped. *)
Definition new_NeuralNetwork (arguments : list Argument) : M nat NeuralNetwork :=
  constructor Math_random (options_of (hd ArgUndefined arguments)).

(** [clone]: the spread [[...row]] of each row and of each bias vector is an
    array of the same elements. *)
Definition clone (this : NeuralNetwork) : M nat NeuralNetwork :=
  newWeights <-
    forEach (fun i Wi => forEach (fun j row => ret row) 0%nat Wi)
            0%nat (weights this) ;;
  newBiases <- forEach (fun i bi => ret bi) 0%nat (biases this) ;;
  constructor Math_random
    {| o_layers := Some (layers this);
       o_activation := Some (activation this);
       o_activationName := Some (activationName this);
       o_weights := Some newWeights;
       o_biases := Some newBiases |}.

End Copies.

(** The element of a nested array at given indices, [None] where there is
    none. *)
Definition entry2 (B : list (list float)) (i j : nat) : option float :=
  match nth_error B i with
  | Some bi => nth_error bi j
  | None => None
  end.

Definition entry3 (W : list (list (list float))) (i j k : nat) : option float :=
  match nth_error W i with
  | Some Wi => entry2 Wi j k
  | None => None
  end.

(** The number of rounds of the innermost loops of [initialize] on a
    topology: for each pair of consecutive sizes, one weight per input of
    each neuron and one bias per neuron; a negative size bounds no round. *)
Fixpoint parameter_count (sizes : list Z) : nat :=
  match sizes with
  | fanIn :: ((fanOut :: _) as rest) =>
      (Z.to_nat fanOut * (Z.to_nat fanIn + 1) + parameter_count rest)%nat
  | _ => 0%nat
  end.

(** What a call returns or throws, the cell aside. *)
Definition result {A St} (o : outcome (A * St)) : outcome A :=
  match o with
  | Returned (a, _) => Returned a
  | Thrown e => Thrown e
  end.

(** The arguments at the two call sites of the [Simulation] class:
    [new NeuralNetwork(100, [50, 20], 10)] in [createTestNetworks], and in
    [initializeEntities] the configured [inputSize], [hiddenLayers],
    [outputSize] and [activation]. *)
Module Callers.

Definition standardNetwork_arguments : list Argument :=
  [ArgNumber 100; ArgArray [50; 20]%Z; ArgNumber 10].

Definition creature_arguments : list Argument :=
  [ArgNumber 10; ArgArray [8; 6]%Z; ArgNumber 4; ArgString "leakyReLU"].

(** The architectures [testNeuralNetworkEfficiency] builds, each from
    [{ layers: arch }], and the size of the inputs it feeds them. *)
Definition architectures : list (list Z) :=
  [[10; 5; 3]; [10; 10; 5; 3]; [10; 20; 10; 5; 3]]%Z.

(** Topology [2, 0, 1]: a hidden layer without neurons, as the constructor
    builds it with a draw 0.5 for the one bias. *)
Definition hollow : NeuralNetwork :=
  {| layers := [2; 0; 1]%Z;
     activation := Static Sigmoid;
     activationName := "sigmoid";
     weights := [[]; [[]]];
     biases := [[]; [0%float]];
     useOptimizedOperations := true |}.

End Callers.

(** ** Facts about binary64 comparisons *)

Section FloatFacts.

Local Open Scope float_scope.

Lemma Prim2SF_15 : Prim2SF 15 = S754_finite false 8444249301319680 (-49).
Proof. vm_compute. reflexivity. Qed.

Lemma Prim2SF_m15 : Prim2SF (-15) = S754_finite true 8444249301319680 (-49).
Proof. vm_compute. reflexivity. Qed.

Lemma Prim2SF_10 : Prim2SF 10 = S754_finite false 5629499534213120 (-49).
Proof. vm_compute. reflexivity. Qed.

Lemma Prim2SF_m10 : Prim2SF (-10) = S754_finite true 5629499534213120 (-49).
Proof. vm_compute. reflexivity. Qed.

Lemma Prim2SF_0 : Prim2SF 0 = S754_zero false.
Proof. vm_compute. reflexivity. Qed.

Ltac by_sign x :=
  unfold SFltb, SFleb, SFcompare;
  destruct (Prim2SF x) as [s|s| |s m e]; try destruct s;
  try congruence; try reflexivity.

Lemma above_15_not_below (x : float) :
  (15 <? x) = true -> (x <? -15) = false.
Proof. rewrite !ltb_spec, Prim2SF_15, Prim2SF_m15. by_sign x. Qed.

Lemma below_m10_not_above (x : float) :
  (x <? -10) = true -> (10 <? x) = false.
Proof. rewrite !ltb_spec, Prim2SF_10, Prim2SF_m10. by_sign x. Qed.

(** A draw that is at least 0 is not below 0. *)
Lemma nonneg_not_below_0 (r : float) :
  (0 <=? r) = true -> (r <? 0) = false.
Proof. rewrite leb_spec, ltb_spec, Prim2SF_0. by_sign r. Qed.

(** Zero is below every threshold some absolute value is below. *)
Lemma abs_below_zero_below (w t : float) :
  (abs w <? t) = true -> (abs 0 <? t) = true.
Proof.
  rewrite !ltb_spec, !abs_spec, Prim2SF_0.
  unfold SFabs, SFltb, SFcompare.
  destruct (Prim2SF w) as [s|s| |s m e]; destruct (Prim2SF t) as [s'|s'| |s' m' e'];
    try destruct s'; try congruence; try reflexivity.
Qed.

Lemma SFeqb_refl (f : spec_float) : f <> S754_nan -> SFeqb f f = true.
Proof.
  unfold SFeqb, SFcompare.
  destruct f as [s|s| |s m e]; intros H; try destruct s;
    try reflexivity; try congruence;
    rewrite Z.compare_refl, Pos.compare_cont_refl; reflexivity.
Qed.

(** A number that compares with 0 is not [NaN]. *)
Lemma above_0_not_nan (x : float) : (0 <? x) = true -> is_nan x = false.
Proof.
  unfold is_nan. rewrite ltb_spec, FloatAxioms.eqb_spec, Prim2SF_0.
  intros H. rewrite SFeqb_refl; [reflexivity |].
  intros E. rewrite E in H. discriminate.
Qed.

Lemma below_0_not_nan (x : float) : (x <? 0) = true -> is_nan x = false.
Proof.
  unfold is_nan. rewrite ltb_spec, FloatAxioms.eqb_spec, Prim2SF_0.
  intros H. rewrite SFeqb_refl; [reflexivity |].
  intros E. rewrite E in H. discriminate.
Qed.

Lemma zero_not_nan (x : float) : (x =? 0) = true -> is_nan x = false.
Proof.
  unfold is_nan. rewrite !FloatAxioms.eqb_spec, Prim2SF_0.
  intros H. rewrite SFeqb_refl; [reflexivity |].
  intros E. rewrite E in H. discriminate.
Qed.

Lemma below_0_not_above (x : float) : (x <? 0) = true -> (0 <? x) = false.
Proof. rewrite !ltb_spec, Prim2SF_0. by_sign x. Qed.

Lemma zero_not_above_nor_below (x : float) :
  (x =? 0) = true -> (0 <? x) = false /\ (x <? 0) = false.
Proof.
  rewrite !ltb_spec, FloatAxioms.eqb_spec, Prim2SF_0. unfold SFeqb.
  intros H. split; revert H; by_sign x.
Qed.

(** [Math.max(0, x)] by the sign of [x]. *)
Lemma Math_max_0 (x : float) :
  ((0 <? x) = true -> Math_max 0 x = x) /\
  ((x <? 0) = true -> Math_max 0 x = 0) /\
  ((x =? 0) = true -> Math_max 0 x = 0) /\
  (is_nan x = true -> Math_max 0 x = nan).
Proof.
  unfold Math_max. change (is_nan 0) with false. cbn [orb].
  repeat split.
  - intros H. rewrite (above_0_not_nan _ H), H. reflexivity.
  - intros H. rewrite (below_0_not_nan _ H), (below_0_not_above _ H), H.
    reflexivity.
  - intros H. rewrite (zero_not_nan _ H).
    destruct (zero_not_above_nor_below _ H) as [-> ->]. reflexivity.
  - intros ->. reflexivity.
Qed.

End FloatFacts.

(** ** Reasoning about the loops *)

Lemma Indexed_length {A B} (R : nat -> A -> B -> Prop) i l bs :
  Indexed R i l bs -> length bs = length l.
Proof. induction 1; simpl; congruence. Qed.

Lemma Indexed_same {A} i (l bs : list A) :
  Indexed (fun _ a b => b = a) i l bs -> bs = l.
Proof. induction 1; subst; reflexivity. Qed.

(** Results that are the elements of [o] at their positions rebuild [o]. *)
Lemma Indexed_lookup {A B} (o : list B) i (l : list A) bs :
  Indexed (fun k _ b => nth_error o k = Some b) i l bs ->
  (i + length l)%nat = length o ->
  bs = skipn i o.
Proof.
  induction 1 as [i | i a b l bs Hb _ IH]; simpl; intros Hlen.
  - symmetry. apply skipn_all2. lia.
  - rewrite IH by lia. clear IH. revert i Hb Hlen.
    induction o as [| x o IHo]; intros [| i] Hb Hlen; simpl in *;
      try discriminate.
    + injection Hb as ->. reflexivity.
    + apply IHo; [assumption | lia].
Qed.

(** A loop whose body returns at every element returns, and what holds of
    each step holds along the result.  [I] is kept by the cell. *)
Lemma forEach_Indexed {St A B} (I : St -> Prop) (R : nat -> A -> B -> Prop)
    (body : nat -> A -> M St B) (l : list A) :
  forall i,
    (forall k a s, nth_error l k = Some a -> I s ->
       exists b s', body (i + k)%nat a s = Returned (b, s') /\ I s' /\
                    R (i + k)%nat a b) ->
    forall s, I s ->
    exists bs s', forEach body i l s = Returned (bs, s') /\ I s' /\
                  Indexed R i l bs.
Proof.
  induction l as [| a l IH]; intros i Hbody s Hs; simpl.
  - exists [], s. repeat split; [assumption | constructor].
  - destruct (Hbody 0%nat a s eq_refl Hs) as (b & s1 & Hb & Hs1 & HR).
    rewrite Nat.add_0_r in Hb, HR.
    destruct (IH (S i)) with (s := s1) as (bs & s2 & Hbs & Hs2 & Hind).
    + intros k a' s' Hk Hs'.
      replace (S i + k)%nat with (i + S k)%nat by lia.
      apply Hbody; assumption.
    + assumption.
    + exists (b :: bs), s2. unfold bind, ret. rewrite Hb, Hbs.
      repeat split; [assumption | constructor; assumption].
Qed.

Lemma forEach_returns {St A B} (body : nat -> A -> M St B) :
  (forall i a s, exists b s', body i a s = Returned (b, s')) ->
  forall l i s, exists bs s', forEach body i l s = Returned (bs, s').
Proof.
  intros Hbody l i s.
  destruct (forEach_Indexed (fun _ => True) (fun _ _ _ => True) body l i)
    with (s := s) as (bs & s' & Hrun & _).
  - intros k a s0 _ _. destruct (Hbody (i + k)%nat a s0) as (b & s1 & H1).
    exists b, s1. auto.
  - exact I.
  - exists bs, s'. exact Hrun.
Qed.

Lemma forEach_same {St A} (body : nat -> A -> M St A) :
  (forall i a s, exists s', body i a s = Returned (a, s')) ->
  forall l i s, exists s', forEach body i l s = Returned (l, s').
Proof.
  intros Hbody l i s.
  destruct (forEach_Indexed (fun _ => True) (fun _ a b => b = a) body l i)
    with (s := s) as (bs & s' & Hrun & _ & Hind).
  - intros k a s0 _ _. destruct (Hbody (i + k)%nat a s0) as [s1 H1].
    exists a, s1. auto.
  - exact I.
  - apply Indexed_same in Hind. subst bs. exists s'. exact Hrun.
Qed.

Lemma Forall2_nth_error {A B} (R : A -> B -> Prop) l o :
  Forall2 R l o ->
  forall k a, nth_error l k = Some a ->
  exists b, nth_error o k = Some b /\ R a b.
Proof.
  induction 1 as [| x y l o Hxy _ IH]; intros [| k] a Hk; simpl in *;
    try discriminate.
  - injection Hk as <-. exists y. auto.
  - apply IH. assumption.
Qed.

(** A loop whose body yields, at each index, the element of [o] there,
    yields [o] when [o] has the shape of the array looped over. *)
Lemma forEach_copy {St A B} (R : A -> B -> Prop)
    (body : nat -> A -> M St B) l o :
  Forall2 R l o ->
  (forall k a b s, nth_error l k = Some a -> nth_error o k = Some b ->
     R a b -> exists s', body k a s = Returned (b, s')) ->
  forall s, exists s', forEach body 0 l s = Returned (o, s').
Proof.
  intros Hshape Hbody s.
  destruct (forEach_Indexed (fun _ => True)
              (fun k _ b => nth_error o k = Some b) body l 0)
    with (s := s) as (bs & s' & Hrun & _ & Hind).
  - intros k a s0 Hk _. simpl.
    destruct (Forall2_nth_error R l o Hshape k a Hk) as (b & Hb & HR).
    destruct (Hbody k a b s0 Hk Hb HR) as [s1 H1].
    exists b, s1. auto.
  - exact I.
  - apply Indexed_lookup in Hind.
    + simpl in Hind. subst bs. exists s'. exact Hrun.
    + simpl. eapply Forall2_length. eassumption.
Qed.

(** A loop whose body maps each element by [f] and adds [c] of it to a
    counter maps the array and adds the sum. *)
Lemma forEach_counting {A B} (f : A -> B) (c : A -> nat)
    (body : nat -> A -> M nat B) :
  (forall i a s, body i a s = Returned (f a, (s + c a)%nat)) ->
  forall l i s,
    forEach body i l s = Returned (map f l, (s + list_sum (map c l))%nat).
Proof.
  intros Hbody. induction l as [| a l IH]; intros i s; simpl.
  - unfold ret. rewrite Nat.add_0_r. reflexivity.
  - unfold bind, ret. rewrite Hbody, IH, Nat.add_assoc. reflexivity.
Qed.

Lemma forEach_shift {St A B} (body : nat -> A -> M St B) (l : list A) :
  forall i, forEach body (S i) l = forEach (fun k => body (S k)) i l.
Proof.
  induction l as [| a l IH]; intros i; simpl; [reflexivity |].
  rewrite IH. reflexivity.
Qed.

(** A loop whose body, at each index, advances the cell by [step] of the
    element and of the element of [o] there folds [step] over the pairs. *)
Lemma forEach_fold {St A B C} (R : A -> B -> Prop) (step : St -> A -> B -> St)
    (l : list A) (o : list B) :
  Forall2 R l o ->
  forall (body : nat -> A -> M St C),
    (forall k a b s, nth_error l k = Some a -> nth_error o k = Some b ->
       R a b -> exists r, body k a s = Returned (r, step s a b)) ->
    forall s, exists rs,
      forEach body 0 l s
      = Returned (rs, fold_left (fun s ab => step s (fst ab) (snd ab))
                                (combine l o) s).
Proof.
  induction 1 as [| a b l o Hab _ IH]; intros body Hbody s.
  - exists []. reflexivity.
  - destruct (Hbody 0%nat a b s eq_refl eq_refl Hab) as [r Hr].
    destruct (IH (fun k => body (S k))) with (s := step s a b) as [rs Hrs].
    { intros k a' b' s' Hk Hk' HR. apply (Hbody (S k)); assumption. }
    exists (r :: rs). cbn [forEach]. unfold bind at 1. rewrite Hr.
    rewrite forEach_shift. unfold bind at 1. rewrite Hrs. reflexivity.
Qed.

(** ** Shapes *)

Lemma shape_ok_same_shape sizes :
  forall W B W' B',
    shape_ok sizes W B = true -> shape_ok sizes W' B' = true ->
    Forall2 (Forall2 same_shape) W W' /\ Forall2 same_shape B B'.
Proof.
  assert (Hrows : forall (l l' : list float),
             length l = length l' -> same_shape l l').
  { intros l. induction l as [| x l IH]; intros [| y l'] H; simpl in *;
      try discriminate; constructor; auto.
    apply IH. lia. }
  assert (Hmat : forall n0 (Wi Wi' : list (list float)),
             length Wi = length Wi' ->
             forallb (fun row => (Z.of_nat (length row) =? n0)%Z) Wi = true ->
             forallb (fun row => (Z.of_nat (length row) =? n0)%Z) Wi' = true ->
             Forall2 same_shape Wi Wi').
  { intros n0 Wi. induction Wi as [| r Wi IH]; intros [| r' Wi'] Hl H H';
      simpl in *; try discriminate; constructor.
    - apply andb_prop in H as [H _], H' as [H' _].
      apply Z.eqb_eq in H, H'. apply Hrows. lia.
    - apply andb_prop in H, H'. apply IH; try tauto. lia. }
  induction sizes as [| n0 rest IH]; intros W B W' B' H H'.
  - destruct W, B, W', B'; try discriminate. split; constructor.
  - destruct rest as [| n1 rest'].
    + destruct W, B, W', B'; try discriminate. split; constructor.
    + destruct W as [| Wi W]; [discriminate |].
      destruct B as [| bi B]; [discriminate |].
      destruct W' as [| Wi' W']; [discriminate |].
      destruct B' as [| bi' B']; [discriminate |].
      cbn [shape_ok] in H, H'.
      apply andb_prop in H as [H Hrest]. apply andb_prop in H as [H Hb].
      apply andb_prop in H as [Hn Hr].
      apply andb_prop in H' as [H' Hrest']. apply andb_prop in H' as [H' Hb'].
      apply andb_prop in H' as [Hn' Hr'].
      apply Z.eqb_eq in Hn, Hn', Hb, Hb'.
      destruct (IH W B W' B' Hrest Hrest') as [IHW IHB].
      split; constructor; auto.
      * apply (Hmat n0); auto. lia.
      * apply Hrows. lia.
Qed.

Lemma sameSizes_refl l : sameSizes l l = true.
Proof. induction l; simpl; [| rewrite Z.eqb_refl]; auto. Qed.

Lemma with_parameters_same G :
  with_parameters G (weights G) (biases G) = G.
Proof. destruct G. reflexivity. Qed.

Lemma skipn_cons_inv {A} (l : list A) :
  forall i x l', skipn i l = x :: l' ->
                 nth_error l i = Some x /\ skipn (S i) l = l'.
Proof.
  induction l as [| a l IH]; intros [| i] x l' H; simpl in *;
    try discriminate.
  - injection H as -> ->. auto.
  - apply IH. assumption.
Qed.

Lemma combine_app_same_shape {A B} (l : list A) (o : list B) l2 o2 :
  same_shape l o -> combine (l ++ l2) (o ++ o2) = combine l o ++ combine l2 o2.
Proof. induction 1; simpl; congruence. Qed.

Lemma Forall2_concat {A B} (R : A -> B -> Prop) ls os :
  Forall2 (Forall2 R) ls os -> Forall2 R (concat ls) (concat os).
Proof.
  induction 1; simpl; [constructor | apply Forall2_app; assumption].
Qed.

Lemma fold_combine_concat {St A B} (f : St -> A * B -> St) ls os :
  Forall2 same_shape ls os ->
  forall s,
    fold_left (fun s lo => fold_left f (combine (fst lo) (snd lo)) s)
              (combine ls os) s
    = fold_left f (combine (concat ls) (concat os)) s.
Proof.
  induction 1 as [| l o ls os Hlo _ IH]; intros s; simpl; [reflexivity |].
  rewrite combine_app_same_shape by assumption.
  rewrite fold_left_app. apply IH.
Qed.

Lemma fold_combine_concat_concat {St A B} (f : St -> A * B -> St) lss oss :
  Forall2 (Forall2 same_shape) lss oss ->
  forall s,
    fold_left
      (fun s lo =>
         fold_left (fun s rr => fold_left f (combine (fst rr) (snd rr)) s)
                   (combine (fst lo) (snd lo)) s)
      (combine lss oss) s
    = fold_left f (combine (concat (concat lss)) (concat (concat oss))) s.
Proof.
  induction 1 as [| ls os lss oss Hlo _ IH]; intros s; simpl; [reflexivity |].
  rewrite !concat_app.
  rewrite combine_app_same_shape by (apply Forall2_concat; assumption).
  rewrite fold_left_app, IH, fold_combine_concat by assumption. reflexivity.
Qed.

(** ** The activation functions are the clamped ones *)

(** C7: sigmoid is 0 below -15, 1 above 15 and 1/(1+e^-x) otherwise; tanh is
    1 above 10, -1 below -10 and (e2x-1)/(e2x+1) with e2x = e^(2x) otherwise;
    relu is max(0,x), that is x above 0 and 0 at and below 0; leakyRelu is x
    for x > 0 and alpha*x otherwise, alpha being 0.01 unless given.  This
    holds for every number x, the infinities and NaN included. *)
Theorem activation_definitions (Math_exp : float -> float) (x : float) :
  ((x <? -15)%float = true -> sigmoid Math_exp x = 0%float) /\
  ((15 <? x)%float = true -> sigmoid Math_exp x = 1%float) /\
  ((x <? -15)%float = false -> (15 <? x)%float = false ->
     sigmoid Math_exp x = (1 / (1 + Math_exp (- x)))%float) /\
  ((10 <? x)%float = true -> tanh Math_exp x = 1%float) /\
  ((x <? -10)%float = true -> tanh Math_exp x = (-1)%float) /\
  ((10 <? x)%float = false -> (x <? -10)%float = false ->
     tanh Math_exp x =
     ((Math_exp (2 * x) - 1) / (Math_exp (2 * x) + 1))%float) /\
  relu x = Math_max 0 x /\
  ((0 <? x)%float = true -> relu x = x) /\
  ((x <? 0)%float = true -> relu x = 0%float) /\
  ((x =? 0)%float = true -> relu x = 0%float) /\
  (is_nan x = true -> relu x = nan) /\
  ((0 <? x)%float = true -> forall alpha, leakyRelu x alpha = x) /\
  ((0 <? x)%float = false ->
     leakyRelu x None = (0.01 * x)%float /\
     forall a, leakyRelu x (Some a) = (a * x)%float).
Proof.
  destruct (Math_max_0 x) as (Hpos & Hneg & Hzero & Hnan).
  unfold sigmoid, tanh, leakyRelu, relu.
  repeat split; try assumption.
  - intros ->. reflexivity.
  - intros H. rewrite (above_15_not_below _ H), H. reflexivity.
  - intros -> ->. reflexivity.
  - intros ->. reflexivity.
  - intros H. rewrite (below_m10_not_above _ H), H. reflexivity.
  - intros -> ->. reflexivity.
  - intros -> alpha. reflexivity.
  - rewrite H. reflexivity.
  - intros a. rewrite H. reflexivity.
Qed.

Lemma activation_definitions_witness :
  sigmoid Examples.unused_exp (-20)%float = 0%float /\
  sigmoid Examples.unused_exp 20%float = 1%float /\
  tanh Examples.unused_exp 20%float = 1%float /\
  tanh Examples.unused_exp (-20)%float = (-1)%float /\
  relu 3%float = 3%float /\
  relu (-3)%float = 0%float /\
  leakyRelu 3%float None = 3%float /\
  leakyRelu (-3)%float None = (0.01 * -3)%float.
Proof.
  pose proof (activation_definitions Examples.unused_exp (-20)%float) as Hlow.
  pose proof (activation_definitions Examples.unused_exp 20%float) as Hhigh.
  pose proof (activation_definitions Examples.unused_exp 3%float) as Hpos.
  pose proof (activation_definitions Examples.unused_exp (-3)%float) as Hneg.
  destruct Hlow as (Hs0 & _ & _ & _ & Ht0 & _).
  destruct Hhigh as (_ & Hs1 & _ & Ht1 & _).
  destruct Hpos as (_ & _ & _ & _ & _ & _ & _ & Hr1 & _ & _ & _ & Hl1 & _).
  destruct Hneg as (_ & _ & _ & _ & _ & _ & _ & _ & Hr0 & _ & _ & _ & Hl0).
  refine (conj (Hs0 _) (conj (Hs1 _) (conj (Ht1 _) (conj (Ht0 _)
            (conj (Hr1 _) (conj (Hr0 _)
            (conj (Hl1 _ None) (proj1 (Hl0 _))))))))); reflexivity.
Defined.

(** ** The unrolled accumulation *)

(** On a layer with fewer than four inputs the unrolled loop is the plain
    one. *)
Lemma accumulateUnrolled_short (n : nat) (outputs w : list float)
    (sum : float) :
  (n < 4)%nat ->
  accumulateUnrolled n outputs w sum = accumulate outputs w 0 n sum.
Proof.
  intros Hn. destruct n as [| [| [| [| n]]]]; try lia; reflexivity.
Qed.

Lemma forEach_ext {St A B} (body body' : nat -> A -> M St B) (l : list A) :
  (forall k a s, In a l -> body k a s = body' k a s) ->
  forall i s, forEach body i l s = forEach body' i l s.
Proof.
  induction l as [| a l IH]; intros Hext i s; simpl; [reflexivity |].
  unfold bind at 1 3. rewrite (Hext i a s (or_introl eq_refl)).
  destruct (body' i a s) as [[b s'] | e]; [| reflexivity].
  unfold bind. rewrite IH; [reflexivity |].
  intros k a' s0 Hin. apply Hext. right. exact Hin.
Qed.

Lemma narrow_layer_agrees Math_exp act b W outputs cache :
  narrow_layer W ->
  layerOptimized Math_exp act b W outputs cache
  = layerStraightforward Math_exp act b W outputs cache.
Proof.
  intros (n0 & Hn0 & HW & Hrows). unfold layerOptimized, layerStraightforward.
  destruct W as [| w0 W']; [contradiction |].
  apply forEach_ext. intros j w s Hin. destruct b as [bi |]; [| reflexivity].
  rewrite Forall_forall in Hrows.
  rewrite (Hrows w0 (or_introl eq_refl)), <- (Hrows w Hin).
  rewrite accumulateUnrolled_short by (rewrite (Hrows w Hin); exact Hn0).
  reflexivity.
Qed.

Lemma narrow_layers_agree Math_exp act bs ws :
  Forall narrow_layer ws ->
  forall i outputs cache,
    forwardLayers (layerOptimized Math_exp) act bs i ws outputs cache
    = forwardLayers (layerStraightforward Math_exp) act bs i ws outputs cache.
Proof.
  induction 1 as [| W ws HW _ IH]; intros i outputs cache; [reflexivity |].
  cbn [forwardLayers]. unfold bind at 1 3.
  rewrite (narrow_layer_agrees Math_exp act (nth_error bs i) W outputs cache HW).
  destruct (layerStraightforward Math_exp act (nth_error bs i) W outputs cache)
    as [[out cache'] | e]; [| reflexivity].
  unfold bind, push. apply IH.
Qed.

Lemma shape_ok_narrow sizes :
  forall W B,
    shape_ok sizes W B = true ->
    forallb (fun n => (0 <? n)%Z) sizes = true ->
    Forall (fun n => (n < 4)%Z) (removelast sizes) ->
    Forall narrow_layer W.
Proof.
  induction sizes as [| n0 rest IH]; intros W B Hshape Hpos Hnarrow.
  - destruct W, B; try discriminate. constructor.
  - destruct rest as [| n1 rest'].
    + destruct W, B; try discriminate. constructor.
    + destruct W as [| Wi W]; [discriminate |].
      destruct B as [| bi B]; [discriminate |].
      change (shape_ok (n0 :: n1 :: rest') (Wi :: W) (bi :: B))
        with ((Z.of_nat (length Wi) =? n1)%Z
              && forallb (fun row => (Z.of_nat (length row) =? n0)%Z) Wi
              && (Z.of_nat (length bi) =? n1)%Z
              && shape_ok (n1 :: rest') W B) in Hshape.
      apply andb_prop in Hshape as [Hshape Hrest].
      apply andb_prop in Hshape as [Hshape _].
      apply andb_prop in Hshape as [Hn1 Hrows]. apply Z.eqb_eq in Hn1.
      change (removelast (n0 :: n1 :: rest'))
        with (n0 :: removelast (n1 :: rest')) in Hnarrow.
      apply Forall_cons_iff in Hnarrow as [Hn0 Hnarrow'].
      cbn [forallb] in Hpos. apply andb_prop in Hpos as [_ Hpos].
      constructor; [| exact (IH W B Hrest Hpos Hnarrow')].
      exists (Z.to_nat n0). split; [lia |]. split.
      * intros ->. cbn [forallb] in Hpos. apply andb_prop in Hpos as [Hpos _].
        apply Z.ltb_lt in Hpos. simpl in Hn1. lia.
      * apply Forall_forall. intros row Hin.
        rewrite forallb_forall in Hrows. specialize (Hrows row Hin).
        apply Z.eqb_eq in Hrows. lia.
Qed.

(** X1: where every layer has fewer than 4 inputs the two passes are one
    function: the unrolled loop never takes its block of four. *)
Lemma passes_agree_below_four_inputs (Math_exp : float -> float)
    (G : NeuralNetwork) (inputs : list float) (cache : Cache) :
  well_formed G ->
  forallb (fun n => (0 <? n)%Z) (layers G) = true ->
  Forall (fun n => (n < 4)%Z) (removelast (layers G)) ->
  feedForwardOptimized Math_exp G inputs cache
  = feedForward Math_exp (unoptimized G) inputs cache.
Proof.
  intros Hwf Hpos Hnarrow. unfold feedForward, feedForwardOptimized.
  cbn [unoptimized useOptimizedOperations activation biases weights].
  unfold bind, put. apply narrow_layers_agree.
  exact (shape_ok_narrow _ _ _ Hwf Hpos Hnarrow).
Qed.

(** C1 fails on the code: with four inputs the optimized pass adds the four
    products to each other before adding them to the bias.  On the network
    of topology [4, 1] with bias 2^53 and unit weights and the input
    [1, 1, 1, 1] it returns 2^53 + 4, and the straightforward loop of
    [feedForward], reached with the flag cleared, returns 2^53, each single
    addition of 1 being rounded away. *)
Theorem unrolled_accumulation_differs (Math_exp : float -> float)
    (cache : Cache) :
  well_formed Examples.wide /\
  feedForwardOptimized Math_exp Examples.wide [1; 1; 1; 1]%float cache
    = Returned ([9007199254740996%float],
                [[1; 1; 1; 1]; [9007199254740996]]%float) /\
  feedForward Math_exp (unoptimized Examples.wide) [1; 1; 1; 1]%float cache
    = Returned ([9007199254740992%float],
                [[1; 1; 1; 1]; [9007199254740992]]%float) /\
  (9007199254740996 =? 9007199254740992)%float = false.
Proof.
  split; [reflexivity |]. split; [reflexivity |]. split; reflexivity.
Qed.

(** ** Forward evaluation checks no length *)

Section ForwardReturns.

Variable Math_exp : float -> float.
Variable act : Callable.
Hypothesis act_returns : activation_returns Math_exp act.

Lemma neurons_return (sum : list float -> nat -> list float -> float) W
    (outputs : list float) (cache : Cache) :
  exists out,
    forEach (fun j w => lift (call Math_exp act (sum outputs j w)))
            0%nat W cache = Returned (out, cache) /\
    length out = length W.
Proof.
  destruct (forEach_Indexed (fun s => s = cache) (fun _ _ (_ : float) => True)
              (fun j w => lift (call Math_exp act (sum outputs j w))) W 0)
    with (s := cache) as (out & cache' & Hrun & -> & Hind).
  - intros k w s _ ->. destruct (act_returns (sum outputs (0 + k)%nat w)) as [y Hy].
    exists y, cache. unfold lift. rewrite Hy. auto.
  - reflexivity.
  - exists out. split; [exact Hrun |]. eapply Indexed_length. eassumption.
Qed.

Lemma layerStraightforward_returns :
  layer_returns act (layerStraightforward Math_exp).
Proof.
  intros b W outputs cache _. unfold layerStraightforward.
  apply (neurons_return
           (fun outputs j w => accumulate outputs w 0 (length w) (elem b j))).
Qed.

Lemma layerOptimized_returns :
  layer_returns act (layerOptimized Math_exp).
Proof.
  intros b W outputs cache HW. unfold layerOptimized.
  destruct W as [| w0 W']; [contradiction |].
  apply (neurons_return
           (fun outputs j w =>
              accumulateUnrolled (length w0) outputs w (elem b j))).
Qed.

Lemma forwardLayers_returns layer (bs : list (list float)) :
  layer_returns act layer ->
  forall ws sizes i outputs cache,
    forallb (fun n => (0 <? n)%Z) sizes = true ->
    shape_ok sizes ws (skipn i bs) = true ->
    exists out cache',
      forwardLayers layer act bs i ws outputs cache = Returned (out, cache') /\
      match ws with
      | [] => out = outputs
      | _ => Z.of_nat (length out) = last sizes 0%Z
      end.
Proof.
  intros Hlayer. induction ws as [| W ws IH]; intros sizes i outputs cache Hpos Hshape.
  - exists outputs, cache. split; reflexivity.
  - destruct sizes as [| n0 [| n1 rest]]; try discriminate.
    cbn [shape_ok] in Hshape.
    destruct (skipn i bs) as [| bi B'] eqn:Hskip; [discriminate |].
    apply skipn_cons_inv in Hskip as [Hbi Hskip].
    apply andb_prop in Hshape as [Hshape Hrest].
    apply andb_prop in Hshape as [Hshape _].
    apply andb_prop in Hshape as [Hn1 _]. apply Z.eqb_eq in Hn1.
    cbn [forallb] in Hpos. apply andb_prop in Hpos as [_ Hpos].
    assert (Hpos1 : (0 < n1)%Z).
    { cbn [forallb] in Hpos. apply andb_prop in Hpos as [Hpos _].
      apply Z.ltb_lt. exact Hpos. }
    assert (HW : W <> []) by (intros ->; simpl in Hn1; lia).
    destruct (Hlayer bi W outputs cache HW) as (out1 & Hrun1 & Hlen1).
    rewrite <- Hskip in Hrest.
    destruct (IH (n1 :: rest) (S i) out1 (cache ++ [out1]) Hpos Hrest)
      as (out & cache' & Hrun & Hout).
    exists out, cache'. split.
    + cbn [forwardLayers]. unfold bind at 1. rewrite Hbi, Hrun1.
      unfold bind at 1, push. exact Hrun.
    + destruct ws as [| W' ws'].
      * subst out. rewrite Hlen1, Hn1.
        destruct rest; [reflexivity |].
        cbn [shape_ok] in Hrest. discriminate.
      * exact Hout.
Qed.

End ForwardReturns.

(** C3 (amended): [feedForward] performs no check of the input length.  For
    a genome with a valid topology [n0..nk], arrays of the matching shape
    and an activation that returns, it returns a vector of length [nk] for
    an input vector of every length; no dimension error is raised. *)
Theorem feedForward_any_input_length (Math_exp : float -> float)
    (G : NeuralNetwork) (inputs : list float) (cache : Cache) :
  valid_topology (layers G) = true ->
  well_formed G ->
  activation_returns Math_exp (activation G) ->
  exists out cache',
    feedForward Math_exp G inputs cache = Returned (out, cache') /\
    Z.of_nat (length out) = last (layers G) 0%Z.
Proof.
  intros Hvalid Hwf Hact. unfold valid_topology in Hvalid.
  apply andb_prop in Hvalid as [Hlen Hpos]. apply Nat.leb_le in Hlen.
  unfold well_formed in Hwf.
  assert (Hws : weights G <> []).
  { intros E. rewrite E in Hwf.
    destruct (layers G) as [| n0 [| n1 rest]]; simpl in *;
      try lia; try discriminate. }
  assert (Hrun : forall layer, layer_returns (activation G) layer ->
            exists out cache',
              forwardLayers layer (activation G) (biases G) 0 (weights G)
                            inputs [inputs] = Returned (out, cache') /\
              Z.of_nat (length out) = last (layers G) 0%Z).
  { intros layer Hlayer.
    destruct (forwardLayers_returns (activation G) layer (biases G)
                Hlayer (weights G) (layers G) 0 inputs [inputs] Hpos Hwf)
      as (out & cache' & Hrun & Hout).
    exists out, cache'. split; [exact Hrun |].
    destruct (weights G); [contradiction | exact Hout]. }
  unfold feedForward, feedForwardOptimized.
  destruct (useOptimizedOperations G); unfold bind, put; apply Hrun.
  - apply layerOptimized_returns. exact Hact.
  - apply layerStraightforward_returns. exact Hact.
Qed.

(** What the call of the lemma above returns: the missing input is read as
    [undefined] and the sum is [NaN]. *)
Example feedForward_short_input_value Math_exp cache :
  feedForward Math_exp Examples.pair_in [1%float] cache
  = Returned ([nan], [[1%float]; [nan]]).
Proof. reflexivity. Qed.

(** C3, as stated, fails: on an input of length 1 the network of topology
    [2, 1] throws nothing, whatever [Math.exp] and the cell are. *)
Lemma feedForward_short_input_returns :
  ~ (exists Math_exp cache e,
       feedForward Math_exp Examples.pair_in [1%float] cache = Thrown e).
Proof. intros (Math_exp & cache & e & H). vm_compute in H. discriminate. Qed.

Lemma feedForward_any_input_length_witness :
  valid_topology (layers Examples.pair_in) = true /\
  well_formed Examples.pair_in /\
  length [1%float] <> 2%nat /\
  exists out cache',
    feedForward Examples.unused_exp Examples.pair_in [1%float] [] =
      Returned (out, cache') /\
    Z.of_nat (length out) = last (layers Examples.pair_in) 0%Z.
Proof.
  split; [reflexivity |]. split; [reflexivity |]. split; [discriminate |].
  apply (feedForward_any_input_length Examples.unused_exp Examples.pair_in
           [1%float] []).
  - reflexivity.
  - reflexivity.
  - intros x. eexists. reflexivity.
Defined.

(** ** Construction validates nothing *)

Lemma initializeLayer_returns (Math_random : nat -> float) (fanIn fanOut : Z) :
  forall n, exists layer n',
    initializeLayer Math_random fanIn fanOut n = Returned (layer, n').
Proof.
  intros n. unfold initializeLayer.
  match goal with
  | |- context [bind (forEach ?body 0%nat ?js)] =>
      destruct (forEach_returns body) with (l := js) (i := 0%nat) (s := n)
        as (neurons & n1 & Hneurons)
  end.
  - intros j a s.
    match goal with
    | |- context [bind (forEach ?body 0%nat ?ks)] =>
        destruct (forEach_returns body) with (l := ks) (i := 0%nat) (s := s)
          as (ws & s1 & Hws)
    end.
    + intros k a0 s0. eexists. eexists. reflexivity.
    + eexists. eexists. unfold bind at 1. rewrite Hws. reflexivity.
  - eexists. eexists. unfold bind at 1. rewrite Hneurons. reflexivity.
Qed.

Lemma initialize_returns (Math_random : nat -> float) (sizes : list Z) :
  forall n, exists WB n', initialize Math_random sizes n = Returned (WB, n').
Proof.
  unfold initialize.
  induction sizes as [| fanIn rest IH]; intros n.
  - eexists. eexists. reflexivity.
  - destruct rest as [| fanOut rest'].
    + eexists. eexists. reflexivity.
    + destruct (initializeLayer_returns Math_random fanIn fanOut n)
        as (layer & n1 & Hlayer).
      destruct (IH n1) as (more & n2 & Hmore).
      exists (fst layer :: fst more, snd layer :: snd more), n2.
      change (initializeLayers Math_random (fanIn :: fanOut :: rest') n)
        with (bind (initializeLayer Math_random fanIn fanOut)
                (fun layer =>
                   bind (initializeLayers Math_random (fanOut :: rest'))
                     (fun more =>
                        ret (fst layer :: fst more, snd layer :: snd more)))
                n).
      unfold bind at 1. rewrite Hlayer. unfold bind at 1. rewrite Hmore.
      reflexivity.
Qed.

(** C4 (amended): the constructor validates no topology.  For every options
    object, whatever its topology, it returns a network, whose topology is
    the one given ([3, 4, 2] when none is given). *)
Theorem constructor_accepts_every_topology (Math_random : nat -> float)
    (options : Options) (n : nat) :
  exists G n',
    constructor Math_random options n = Returned (G, n') /\
    layers G = or_default (o_layers options) [3; 4; 2]%Z.
Proof.
  unfold constructor.
  destruct (initialize_returns Math_random
              (or_default (o_layers options) [3; 4; 2]%Z) n)
    as (WB & n' & Hinit).
  destruct (o_weights options) as [W |], (o_biases options) as [B |];
    try (eexists; eexists; unfold bind; rewrite Hinit; split; reflexivity).
  eexists. eexists. split; reflexivity.
Qed.

(** C4, as stated, fails on a topology of one entry and on a topology with
    an entry 0: no source of draws makes the constructor throw on either. *)
Lemma constructor_invalid_topology_returns :
  ~ (exists Math_random n e,
       constructor Math_random (Examples.only_layers [5]%Z) n = Thrown e) /\
  ~ (exists Math_random n e,
       constructor Math_random (Examples.only_layers [2; 0]%Z) n = Thrown e).
Proof.
  split; intros (Math_random & n & e & H); vm_compute in H; discriminate.
Qed.

Lemma initializeLayer_shape (Math_random : nat -> float) (fanIn fanOut : Z) :
  forall n, exists rows bs n',
    initializeLayer Math_random fanIn fanOut n = Returned ((rows, bs), n') /\
    length rows = Z.to_nat fanOut /\
    forallb (fun row => (length row =? Z.to_nat fanIn)%nat) rows = true /\
    length bs = Z.to_nat fanOut.
Proof.
  intros n. unfold initializeLayer.
  match goal with
  | |- context [bind (forEach ?body 0%nat ?js)] =>
      destruct (forEach_Indexed (fun _ => True)
                  (fun (_ _ : nat) (nb : list float * float) =>
                     length (fst nb) = Z.to_nat fanIn)
                  body js 0)
        with (s := n) as (neurons & n1 & Hneurons & _ & Hind)
  end.
  - intros j a s _ _.
    match goal with
    | |- context [bind (forEach ?body 0%nat ?ks)] =>
        destruct (forEach_Indexed (fun _ => True)
                    (fun (_ _ : nat) (_ : float) => True) body ks 0)
          with (s := s) as (ws & s1 & Hws & _ & Hlen)
    end.
    + intros k a0 s0 _ _. eexists. eexists. split; [reflexivity | auto].
    + exact I.
    + apply Indexed_length in Hlen. rewrite length_seq in Hlen.
      eexists. eexists. unfold bind at 1. rewrite Hws.
      split; [reflexivity | auto].
  - exact I.
  - exists (map fst neurons), (map snd neurons), n1.
    unfold bind at 1. rewrite Hneurons. split; [reflexivity |].
    pose proof (Indexed_length _ _ _ _ Hind) as Hlen.
    rewrite length_seq in Hlen.
    rewrite !length_map. repeat split; try assumption.
    clear Hneurons Hlen. induction Hind as [| i a nb l bs Hnb _ IH]; simpl.
    + reflexivity.
    + rewrite IH, Hnb, Nat.eqb_refl. reflexivity.
Qed.

(** On sizes that are not negative [initialize] builds arrays of the shape
    of the topology. *)
Lemma initialize_shape_ok (Math_random : nat -> float) (sizes : list Z) :
  forallb (fun z => (0 <=? z)%Z) sizes = true ->
  forall n, exists W B n',
    initialize Math_random sizes n = Returned ((W, B), n') /\
    shape_ok sizes W B = true.
Proof.
  unfold initialize.
  induction sizes as [| fanIn rest IH]; intros Hpos n.
  - exists [], [], n. split; reflexivity.
  - destruct rest as [| fanOut rest'].
    + exists [], [], n. split; reflexivity.
    + cbn [forallb] in Hpos. apply andb_prop in Hpos as [HfanIn Hpos].
      assert (HfanOut : (0 <=? fanOut)%Z = true).
      { cbn [forallb] in Hpos. apply andb_prop in Hpos. tauto. }
      apply Z.leb_le in HfanIn, HfanOut.
      destruct (initializeLayer_shape Math_random fanIn fanOut n)
        as (rows & bs & n1 & Hlayer & Hrows & Hrow & Hbs).
      destruct (IH Hpos n1) as (W & B & n2 & Hmore & Hshape).
      exists (rows :: W), (bs :: B), n2. split.
      * change (initializeLayers Math_random (fanIn :: fanOut :: rest') n)
          with (bind (initializeLayer Math_random fanIn fanOut)
                  (fun layer =>
                     bind (initializeLayers Math_random (fanOut :: rest'))
                       (fun more =>
                          ret (fst layer :: fst more, snd layer :: snd more)))
                  n).
        unfold bind at 1. rewrite Hlayer. unfold bind at 1. rewrite Hmore.
        reflexivity.
      * change (shape_ok (fanIn :: fanOut :: rest') (rows :: W) (bs :: B))
          with ((Z.of_nat (length rows) =? fanOut)%Z
                && forallb (fun row => (Z.of_nat (length row) =? fanIn)%Z) rows
                && (Z.of_nat (length bs) =? fanOut)%Z
                && shape_ok (fanOut :: rest') W B).
        rewrite Hshape, Hrows, Hbs, Z2Nat.id by assumption.
        rewrite Z.eqb_refl. cbn [andb]. rewrite andb_true_r.
        clear - Hrow HfanIn. induction rows as [| row rows IH]; simpl in *.
        -- reflexivity.
        -- apply andb_prop in Hrow as [Hr Hrow]. apply Nat.eqb_eq in Hr.
           rewrite Hr, Z2Nat.id, Z.eqb_refl by assumption. auto.
Qed.

(** A network built from a topology alone, with no negative size, has the
    shape of that topology. *)
Lemma constructor_well_formed (Math_random : nat -> float) (sizes : list Z)
    (n : nat) :
  forallb (fun z => (0 <=? z)%Z) sizes = true ->
  exists G n',
    constructor Math_random (Examples.only_layers sizes) n = Returned (G, n') /\
    layers G = sizes /\ well_formed G.
Proof.
  intros Hpos.
  destruct (initialize_shape_ok Math_random sizes Hpos n)
    as (W & B & n' & Hinit & Hshape).
  eexists. exists n'. unfold constructor, Examples.only_layers, or_default.
  cbn [o_layers o_activation o_activationName o_weights o_biases].
  unfold bind. rewrite Hinit. split; [reflexivity |].
  split; [reflexivity | exact Hshape].
Qed.

(** ** Mutation and crossover at the extreme rates *)

Section ExtremeRates.

Variable Math_random : nat -> float.
Hypothesis draws : unit_draws Math_random.

Lemma draw_not_below_0 n : (Math_random n <? 0)%float = false.
Proof. apply nonneg_not_below_0, draws. Qed.

Lemma draw_below_1 n : (Math_random n <? 1)%float = true.
Proof. apply draws. Qed.

Lemma mutateElement_rate_zero amount x n :
  mutateElement Math_random 0 amount x n = Returned (x, S n).
Proof.
  unfold mutateElement, bind, random. rewrite draw_not_below_0. reflexivity.
Qed.

Lemma mutate_rate_zero G amount n :
  exists n', mutate Math_random G (Some 0%float) amount n = Returned (G, n').
Proof.
  unfold mutate, or_default.
  set (a := match amount with Some a => a | None => 0.5%float end).
  destruct (forEach_same
              (fun (_ : nat) Wi =>
                 forEach (fun (_ : nat) row =>
                   forEach (fun (_ : nat) w => mutateElement Math_random 0 a w)
                           0 row) 0 Wi))
    with (l := weights G) (i := 0%nat) (s := n) as [n1 HW].
  { intros _ Wi s. apply forEach_same. intros _ row s0.
    apply forEach_same. intros _ w s1. eexists.
    apply mutateElement_rate_zero. }
  destruct (forEach_same
              (fun (_ : nat) bi =>
                 forEach (fun (_ : nat) b => mutateElement Math_random 0 a b)
                         0 bi))
    with (l := biases G) (i := 0%nat) (s := n1) as [n2 HB].
  { intros _ bi s. apply forEach_same. intros _ b s0. eexists.
    apply mutateElement_rate_zero. }
  exists n2. unfold bind at 1. rewrite HW. unfold bind, ret. rewrite HB.
  rewrite with_parameters_same. reflexivity.
Qed.

(** With rate 1 every element is taken from [this]. *)
Lemma crossover_rate_one (A B : NeuralNetwork) n :
  layers A = layers B ->
  exists child n',
    crossover Math_random A B (Some 1%float) n = Returned (child, n') /\
    weights child = weights A /\ biases child = biases A.
Proof.
  intros Hlayers. unfold crossover, or_default.
  rewrite <- Hlayers, Nat.eqb_refl, sameSizes_refl. cbn [negb].
  destruct (forEach_same
              (fun i Wi =>
                 forEach (fun j row =>
                   forEach (fun k w =>
                     bind (random Math_random) (fun r =>
                       if (r <? 1)%float then ret w else weightAt B i j k))
                   0 row) 0 Wi))
    with (l := weights A) (i := 0%nat) (s := n) as [n1 HW].
  { intros i Wi s. apply forEach_same. intros j row s0.
    apply forEach_same. intros k w s1. eexists.
    unfold bind, random. rewrite draw_below_1. reflexivity. }
  destruct (forEach_same
              (fun i bi =>
                 forEach (fun j b =>
                   bind (random Math_random) (fun r =>
                     if (r <? 1)%float then ret b else biasAt B i j))
                 0 bi))
    with (l := biases A) (i := 0%nat) (s := n1) as [n2 HB].
  { intros i bi s. apply forEach_same. intros j b s0. eexists.
    unfold bind, random. rewrite draw_below_1. reflexivity. }
  eexists. exists n2. unfold bind at 1. rewrite HW.
  unfold bind at 1. rewrite HB. unfold constructor, ret; cbn.
  repeat split.
Qed.

(** With rate 0 every element is read from [other], at the indices of
    [this]: the child has the parameters of [other] when the two parents
    have one shape. *)
Lemma crossover_rate_zero (A B : NeuralNetwork) n :
  layers A = layers B ->
  Forall2 (Forall2 same_shape) (weights A) (weights B) ->
  Forall2 same_shape (biases A) (biases B) ->
  exists child n',
    crossover Math_random A B (Some 0%float) n = Returned (child, n') /\
    weights child = weights B /\ biases child = biases B.
Proof.
  intros Hlayers HW HB. unfold crossover, or_default.
  rewrite <- Hlayers, Nat.eqb_refl, sameSizes_refl. cbn [negb].
  destruct (forEach_copy (Forall2 same_shape)
              (fun i Wi =>
                 forEach (fun j row =>
                   forEach (fun k w =>
                     bind (random Math_random) (fun r =>
                       if (r <? 0)%float then ret w else weightAt B i j k))
                   0 row) 0 Wi)
              (weights A) (weights B) HW)
    with (s := n) as [n1 HrunW].
  { intros i Wi oW s _ HoW HWi.
    apply (forEach_copy same_shape); [exact HWi |].
    intros j row orow s0 _ Horow Hrow.
    apply (forEach_copy (fun _ _ => True)); [exact Hrow |].
    intros k w b s1 _ Hb _. eexists.
    unfold bind, random. rewrite draw_not_below_0.
    unfold weightAt, elem, ret. rewrite HoW, Horow.
    rewrite (nth_error_nth _ _ _ Hb). reflexivity. }
  destruct (forEach_copy same_shape
              (fun i bi =>
                 forEach (fun j b =>
                   bind (random Math_random) (fun r =>
                     if (r <? 0)%float then ret b else biasAt B i j))
                 0 bi)
              (biases A) (biases B) HB)
    with (s := n1) as [n2 HrunB].
  { intros i bi obi s _ Hobi Hbi.
    apply (forEach_copy (fun _ _ => True)); [exact Hbi |].
    intros j b x s0 _ Hx _. eexists.
    unfold bind, random. rewrite draw_not_below_0.
    unfold biasAt, elem, ret. rewrite Hobi.
    rewrite (nth_error_nth _ _ _ Hx). reflexivity. }
  eexists. exists n2. unfold bind at 1. rewrite HrunW.
  unfold bind at 1. rewrite HrunB. unfold constructor, ret; cbn.
  repeat split.
Qed.

End ExtremeRates.

Lemma halves_unit_draws : unit_draws Examples.halves.
Proof. intros k. split; reflexivity. Defined.

(** C9: [mutate] with rate 0 leaves every weight and every bias, and so the
    whole genome, as it was, whatever the amount and whatever values in
    [0, 1) [Math.random] returns. *)
Theorem mutate_rate_zero_unchanged (Math_random : nat -> float)
    (G : NeuralNetwork) (amount : option float) (n : nat) :
  unit_draws Math_random ->
  exists n', mutate Math_random G (Some 0%float) amount n = Returned (G, n').
Proof. intros draws. apply mutate_rate_zero. exact draws. Qed.

Lemma mutate_rate_zero_unchanged_witness :
  unit_draws Examples.halves /\
  exists n',
    mutate Examples.halves Examples.first_parent (Some 0%float)
           (Some 2%float) 0 = Returned (Examples.first_parent, n').
Proof.
  split; [exact halves_unit_draws |].
  apply (mutate_rate_zero_unchanged Examples.halves Examples.first_parent
           (Some 2%float) 0).
  exact halves_unit_draws.
Defined.

(** C6: for two genomes of one topology, [crossover] with rate 1.0 yields a
    child whose weights and biases are those of the first parent, and with
    rate 0.0 a child whose weights and biases are those of the second,
    whatever values in [0, 1) [Math.random] returns. *)
Theorem crossover_extreme_rates (Math_random : nat -> float)
    (A B : NeuralNetwork) (n : nat) :
  unit_draws Math_random ->
  well_formed A -> well_formed B -> layers A = layers B ->
  (exists child n',
     crossover Math_random A B (Some 1%float) n = Returned (child, n') /\
     weights child = weights A /\ biases child = biases A) /\
  (exists child n',
     crossover Math_random A B (Some 0%float) n = Returned (child, n') /\
     weights child = weights B /\ biases child = biases B).
Proof.
  intros draws HA HB Hlayers. split.
  - apply crossover_rate_one; assumption.
  - unfold well_formed in HA, HB. rewrite Hlayers in HA.
    destruct (shape_ok_same_shape _ _ _ _ _ HA HB) as [HW Hb].
    apply crossover_rate_zero; assumption.
Qed.

Lemma crossover_extreme_rates_witness :
  well_formed Examples.first_parent /\
  well_formed Examples.second_parent /\
  layers Examples.first_parent = layers Examples.second_parent /\
  (exists child n',
     crossover Examples.halves Examples.first_parent Examples.second_parent
               (Some 1%float) 0 = Returned (child, n') /\
     weights child = weights Examples.first_parent /\
     biases child = biases Examples.first_parent) /\
  (exists child n',
     crossover Examples.halves Examples.first_parent Examples.second_parent
               (Some 0%float) 0 = Returned (child, n') /\
     weights child = weights Examples.second_parent /\
     biases child = biases Examples.second_parent).
Proof.
  split; [reflexivity |]. split; [reflexivity |]. split; [reflexivity |].
  apply (crossover_extreme_rates Examples.halves Examples.first_parent
           Examples.second_parent 0).
  - exact halves_unit_draws.
  - reflexivity.
  - reflexivity.
  - reflexivity.
Defined.

(** ** Differences *)

(** C5 fails on the code: [difference] compares no topology.  Between the
    networks of topologies [1, 1] and [2, 1] it returns a number, computed
    over the indices of the receiver; the surplus weight of the wider one is
    ignored one way and read as [undefined] the other way. *)
Theorem difference_mismatched_topologies_returns :
  layers Examples.narrow <> layers Examples.broad /\
  well_formed Examples.narrow /\ well_formed Examples.broad /\
  difference Examples.narrow Examples.broad = Returned 1.5%float /\
  difference Examples.broad Examples.narrow = Returned nan.
Proof.
  split; [discriminate |]. split; [reflexivity |]. split; [reflexivity |].
  split; reflexivity.
Qed.

Section Tally.

Local Open Scope float_scope.


Lemma fold_tallied (l : list (float * float)) :
  forall s,
    fold_left tallied l s
    = (fold_left add (map (fun ab => Math_abs (fst ab - snd ab)) l) (fst s),
       (snd s + length l)%nat).
Proof.
  induction l as [| ab l IH]; intros [t c]; simpl.
  - rewrite Nat.add_0_r. reflexivity.
  - rewrite IH. simpl. f_equal. lia.
Qed.

(** On two genomes of one shape [difference] is the mean absolute
    difference of their parameters, accumulated in the order of the loops. *)
Lemma difference_same_shape (A B : NeuralNetwork) :
  Forall2 (Forall2 same_shape) (weights A) (weights B) ->
  Forall2 same_shape (biases A) (biases B) ->
  difference A B
  = Returned (mean_absolute_difference (parameters A) (parameters B)).
Proof.
  intros HW HB. unfold difference.
  destruct (forEach_fold (C := list (list unit)) (Forall2 same_shape)
              (fun s Wi oWi =>
                 fold_left (fun s rr => fold_left tallied
                                          (combine (fst rr) (snd rr)) s)
                           (combine Wi oWi) s)
              _ _ HW
              (fun i Wi =>
                 forEach (fun j row =>
                   forEach (fun k w =>
                     bind (weightAt B i j k) (fun x => tally (Math_abs (w - x))))
                   0%nat row) 0%nat Wi))
    with (s := (0, 0%nat)) as [rsW HrunW].
  { intros i Wi oWi s _ HoWi HWi.
    apply (forEach_fold (C := list unit) same_shape
             (fun s row orow => fold_left tallied (combine row orow) s)
             _ _ HWi).
    intros j row orow s0 _ Horow Hrow.
    apply (forEach_fold (C := unit) (fun _ _ => True)
             (fun s w x => tallied s (w, x)) _ _ Hrow).
    intros k w x s1 _ Hx _. exists tt.
    unfold bind, weightAt, ret, tally, tallied, elem. rewrite HoWi, Horow.
    rewrite (nth_error_nth _ _ _ Hx). reflexivity. }
  assert (HrunB : forall s, exists rs,
            forEach (fun i bi =>
                       forEach (fun j b =>
                         bind (biasAt B i j) (fun x => tally (Math_abs (b - x))))
                       0%nat bi) 0%nat (biases A) s
            = Returned (rs, fold_left
                              (fun s lo => fold_left tallied
                                             (combine (fst lo) (snd lo)) s)
                              (combine (biases A) (biases B)) s)).
  { apply (forEach_fold (C := list unit) same_shape
             (fun s bi obi => fold_left tallied (combine bi obi) s) _ _ HB).
    intros i bi obi s _ Hobi Hbi.
    apply (forEach_fold (C := unit) (fun _ _ => True)
             (fun s b x => tallied s (b, x)) _ _ Hbi).
    intros j b x s0 _ Hx _. exists tt.
    unfold bind, biasAt, ret, tally, tallied, elem. rewrite Hobi.
    rewrite (nth_error_nth _ _ _ Hx). reflexivity. }
  unfold bind at 1. rewrite HrunW. unfold bind at 1.
  match goal with
  | |- context [forEach _ 0%nat (biases A) ?s] =>
      destruct (HrunB s) as [rsB HrB]
  end.
  rewrite HrB. unfold ret.
  rewrite fold_combine_concat by assumption.
  rewrite fold_combine_concat_concat by assumption.
  rewrite <- fold_left_app.
  rewrite <- combine_app_same_shape
    by (apply Forall2_concat, Forall2_concat; assumption).
  fold (parameters A). fold (parameters B).
  rewrite fold_tallied. cbn [fst snd Nat.add].
  unfold mean_absolute_difference. rewrite length_map. reflexivity.
Qed.

End Tally.

(** X2: on two well-formed genomes of one topology [difference] returns,
    and what it returns is the mean of the absolute differences of their
    parameters, every weight and then every bias, summed from 0 in that
    order. *)
Lemma difference_well_formed (A B : NeuralNetwork) :
  well_formed A -> well_formed B -> layers A = layers B ->
  difference A B
  = Returned (mean_absolute_difference (parameters A) (parameters B)).
Proof.
  unfold well_formed. intros HA HB Hlayers. rewrite Hlayers in HA.
  destruct (shape_ok_same_shape _ _ _ _ _ HA HB) as [HW Hb].
  apply difference_same_shape; assumption.
Qed.

(** ** Pruning *)

Section Pruning.

Variable t : float.

Local Open Scope float_scope.

Let one_if_below (w : float) : nat := if below t w then 1%nat else 0%nat.

Lemma pruneElement_counts w s :
  pruneElement t w s = Returned (pruned t w, (s + one_if_below w)%nat).
Proof.
  unfold pruneElement, pruned, one_if_below, below.
  destruct (Math_abs w <? t); unfold bind, get, put, ret.
  - rewrite Nat.add_1_r. reflexivity.
  - rewrite Nat.add_0_r. reflexivity.
Qed.

Lemma count_below l :
  list_sum (map one_if_below l) = length (filter (below t) l).
Proof.
  induction l as [| w l IH]; simpl; [reflexivity |].
  unfold one_if_below at 1. destruct (below t w); simpl; lia.
Qed.

Lemma count_concat {A} (p : A -> bool) (ls : list (list A)) :
  list_sum (map (fun l => length (filter p l)) ls)
  = length (filter p (concat ls)).
Proof.
  induction ls as [| l ls IH]; simpl; [reflexivity |].
  rewrite filter_app, length_app, IH. reflexivity.
Qed.

Lemma count_concat_concat {A} (p : A -> bool) (lss : list (list (list A))) :
  list_sum (map (fun ls => length (filter p (concat ls))) lss)
  = length (filter p (concat (concat lss))).
Proof.
  induction lss as [| ls lss IH]; simpl; [reflexivity |].
  rewrite concat_app, filter_app, length_app, IH. reflexivity.
Qed.

(** The three loops of [prune] from a count [s]. *)
Lemma prune_loops W s :
  forEach (fun _ Wi =>
    forEach (fun _ row =>
      forEach (fun _ w => pruneElement t w) 0%nat row) 0%nat Wi) 0%nat W s
  = Returned (map (map (map (pruned t))) W,
              (s + length (filter (below t) (concat (concat W))))%nat).
Proof.
  rewrite <- count_concat_concat.
  rewrite (forEach_counting (map (map (pruned t)))
             (fun Wi => length (filter (below t) (concat Wi)))).
  - reflexivity.
  - intros _ Wi s0. rewrite <- count_concat.
    apply (forEach_counting (map (pruned t))
             (fun row => length (filter (below t) row))).
    intros _ row s1. rewrite <- count_below.
    apply forEach_counting. intros _ w s2. apply pruneElement_counts.
Qed.

(** A zeroed weight is below the threshold still. *)
Lemma below_pruned w : below t (pruned t w) = below t w.
Proof.
  unfold pruned. destruct (below t w) eqn:Hw; [| exact Hw].
  unfold below, Math_abs in *. exact (abs_below_zero_below _ _ Hw).
Qed.

Lemma pruned_again l : map (pruned t) (map (pruned t) l) = map (pruned t) l.
Proof.
  rewrite map_map. apply map_ext. intros w. unfold pruned at 1.
  rewrite below_pruned. unfold pruned. destruct (below t w); reflexivity.
Qed.

Lemma filter_below_pruned l :
  length (filter (below t) (map (pruned t) l)) = length (filter (below t) l).
Proof.
  induction l as [| w l IH]; simpl; [reflexivity |].
  rewrite below_pruned. destruct (below t w); simpl; congruence.
Qed.

Lemma prune_twice W :
  map (map (map (pruned t))) (map (map (map (pruned t))) W)
  = map (map (map (pruned t))) W
  /\ length (filter (below t)
               (concat (concat (map (map (map (pruned t))) W))))
     = length (filter (below t) (concat (concat W))).
Proof.
  split.
  - rewrite map_map. apply map_ext. intros Wi.
    rewrite map_map. apply map_ext. intros row. apply pruned_again.
  - rewrite <- !concat_map. apply filter_below_pruned.
Qed.

End Pruning.

(** C8 (amended): [prune] sets to 0 exactly the weights whose absolute value
    is strictly below the threshold, leaves the biases as they were and
    returns the number of those weights; repeated at once with the same
    threshold it changes nothing and returns that same number again, the
    zeroed weights being below the threshold still. *)
Theorem prune_zeroes_below_threshold (G : NeuralNetwork)
    (threshold : option float) :
  let t := or_default threshold 0.01%float in
  let G' :=
    with_parameters G (map (map (map (pruned t))) (weights G)) (biases G) in
  let count := length (filter (below t) (concat (concat (weights G)))) in
  prune G threshold = Returned (count, G') /\
  prune G' threshold = Returned (count, G').
Proof.
  intros t G' count. unfold prune. fold t. split.
  - rewrite prune_loops. reflexivity.
  - rewrite prune_loops. subst G' count.
    cbn [weights biases with_parameters].
    destruct (prune_twice t (weights G)) as [-> ->]. reflexivity.
Qed.

(** C8, as stated, fails in its last part: the weight 0.001, zeroed by a
    first call with threshold 0.01, is counted by the second call too. *)
Lemma prune_repeated_counts_again :
  prune (Examples.sparse 0.001%float) (Some 0.01%float)
    = Returned (1%nat, Examples.sparse 0%float) /\
  prune (Examples.sparse 0%float) (Some 0.01%float)
    = Returned (1%nat, Examples.sparse 0%float) /\
  prune (Examples.sparse 0%float) (Some 0.01%float)
    <> Returned (0%nat, Examples.sparse 0%float).
Proof.
  split; [reflexivity |]. split; [reflexivity |].
  intros H. vm_compute in H. discriminate.
Qed.

(** ** Records and the round trip *)

(** Whatever the recorded name, the round trip keeps the topology, the
    weights and the biases. *)
Lemma roundtrip_keeps_parameters (Math_random : nat -> float)
    (G : NeuralNetwork) (n : nat) :
  exists G',
    fromJSON Math_random (toJSON G) n = Returned (G', n) /\
    layers G' = layers G /\ weights G' = weights G /\ biases G' = biases G.
Proof. eexists. split; [reflexivity |]. repeat split. Qed.

(** X3: [fromJSON(toJSON(G))] is [G] itself, with no draw made, for a
    network with the optimized pass on whose recorded name is the key of its
    activation in the table of [fromJSON]. *)
Lemma roundtrip_when_name_matches (Math_random : nat -> float)
    (G : NeuralNetwork) (n : nat) :
  name_matches G -> useOptimizedOperations G = true ->
  fromJSON Math_random (toJSON G) n = Returned (G, n).
Proof.
  unfold name_matches. intros Hname Hflag. unfold fromJSON, constructor.
  cbn [toJSON j_layers j_activationName j_weights j_biases o_layers
       o_activation o_activationName o_weights o_biases].
  rewrite Hname. unfold or_default, or_string, ret.
  destruct (String.eqb_spec (activationName G) EmptyString) as [E | _].
  - rewrite E in Hname. discriminate.
  - destruct (String.eqb_spec (activationName G) EmptyString) as [E | _].
    + rewrite E in Hname. discriminate.
    + destruct G; cbn in *; subst; reflexivity.
Qed.

(** C2 fails on the code: the network the constructor builds from the
    options [layers], [activation: relu], [weights], [biases] records the
    name "sigmoid"; its round trip is bound to sigmoid and maps the input 20
    to 1, where the network itself yields 20. *)
Theorem roundtrip_rebinds_activation (Math_random : nat -> float)
    (Math_exp : float -> float) (n : nat) (cache : Cache) :
  exists G G',
    constructor Math_random Examples.relu_options n = Returned (G, n) /\
    fromJSON Math_random (toJSON G) n = Returned (G', n) /\
    well_formed G /\
    activation G = Static Relu /\ activation G' = Static Sigmoid /\
    feedForward Math_exp G [20%float] cache
      = Returned ([20%float], [[20%float]; [20%float]]) /\
    feedForward Math_exp G' [20%float] cache
      = Returned ([1%float], [[20%float]; [1%float]]) /\
    (20 =? 1)%float = false.
Proof.
  eexists. eexists.
  split; [reflexivity |]. split; [reflexivity |].
  split; [reflexivity |]. split; [reflexivity |]. split; [reflexivity |].
  split; [reflexivity |]. split; reflexivity.
Qed.

Lemma activationMap_unrecognized (name : string) :
  ~ In name ["sigmoid"; "relu"; "tanh"; "leakyRelu"]%string ->
  inherited name = false ->
  activationMap name = None.
Proof.
  intros Hnot Hinh. unfold activationMap.
  repeat match goal with
         | |- context [String.eqb name ?key] =>
             destruct (String.eqb_spec name key) as [-> |];
             [exfalso; apply Hnot; simpl; tauto |]
         end.
  rewrite Hinh. reflexivity.
Qed.

(** C10 (amended): a record whose activation name is none of the four names
    and no property inherited by the lookup table makes [fromJSON] return a
    network bound to sigmoid; a non-empty such name is kept and comes back
    from [toJSON], the empty name is replaced by "sigmoid". *)
Theorem fromJSON_unrecognized_name (Math_random : nat -> float) (json : Json)
    (n : nat) :
  let name := j_activationName json in
  ~ In name ["sigmoid"; "relu"; "tanh"; "leakyRelu"]%string ->
  inherited name = false ->
  exists G,
    fromJSON Math_random json n = Returned (G, n) /\
    activation G = Static Sigmoid /\
    (forall Math_exp x,
       call Math_exp (activation G) x = Returned (sigmoid Math_exp x)) /\
    (name <> EmptyString -> j_activationName (toJSON G) = name) /\
    (name = EmptyString -> j_activationName (toJSON G) = "sigmoid"%string).
Proof.
  intros name Hnot Hinh. unfold fromJSON. fold name.
  rewrite (activationMap_unrecognized name Hnot Hinh).
  unfold constructor, or_default, ret.
  cbn [o_weights o_biases o_layers o_activation o_activationName].
  eexists. split; [reflexivity |].
  cbn [activation activationName toJSON j_activationName call].
  split; [reflexivity |]. split; [reflexivity |]. unfold or_string. split.
  - intros Hne.
    destruct (String.eqb_spec name EmptyString) as [E | _]; [contradiction |].
    destruct (String.eqb_spec name EmptyString) as [E | _];
      [contradiction | reflexivity].
  - intros ->. reflexivity.
Qed.

Lemma fromJSON_unrecognized_name_witness :
  ~ In "swish"%string ["sigmoid"; "relu"; "tanh"; "leakyRelu"]%string /\
  inherited "swish" = false /\
  exists G,
    fromJSON Examples.halves (Examples.named "swish") 0
      = Returned (G, 0%nat) /\
    activation G = Static Sigmoid /\
    j_activationName (toJSON G) = "swish"%string.
Proof.
  assert (Hnot : ~ In "swish"%string
                   ["sigmoid"; "relu"; "tanh"; "leakyRelu"]%string).
  { simpl. intros [E | [E | [E | [E | []]]]]; discriminate. }
  split; [exact Hnot |]. split; [reflexivity |].
  destruct (fromJSON_unrecognized_name Examples.halves
              (Examples.named "swish") 0 Hnot eq_refl)
    as (G & Hrun & Hact & _ & Hname & _).
  exists G. split; [exact Hrun |]. split; [exact Hact |].
  apply Hname. discriminate.
Defined.

(** C10, as stated, fails on the empty name, which is not kept, and on the
    name "constructor", for which the table yields an inherited member and
    not [undefined], so that sigmoid is not bound. *)
Lemma fromJSON_name_or_binding_lost :
  ~ (exists Math_random n G n',
       fromJSON Math_random (Examples.named EmptyString) n = Returned (G, n') /\
       j_activationName (toJSON G) = EmptyString) /\
  ~ (exists Math_random n G n',
       fromJSON Math_random (Examples.named "constructor") n
         = Returned (G, n') /\
       activation G = Static Sigmoid).
Proof.
  split; intros (Math_random & n & G & n' & Hrun & H);
    vm_compute in Hrun; injection Hrun as <- _; discriminate.
Qed.

(** * Further properties of the class *)

(** ** Witnesses of the three properties above *)

Lemma difference_well_formed_witness :
  well_formed Examples.first_parent /\
  well_formed Examples.second_parent /\
  layers Examples.first_parent = layers Examples.second_parent /\
  difference Examples.first_parent Examples.second_parent
  = Returned (mean_absolute_difference
                (parameters Examples.first_parent)
                (parameters Examples.second_parent)).
Proof.
  split; [reflexivity |]. split; [reflexivity |]. split; [reflexivity |].
  apply (difference_well_formed Examples.first_parent Examples.second_parent);
    reflexivity.
Defined.

Lemma passes_agree_below_four_inputs_witness :
  well_formed Examples.pair_in /\
  feedForwardOptimized Examples.unused_exp Examples.pair_in
                       [3; 5]%float []
  = feedForward Examples.unused_exp (unoptimized Examples.pair_in)
                [3; 5]%float [].
Proof.
  split; [reflexivity |].
  apply (passes_agree_below_four_inputs Examples.unused_exp Examples.pair_in
           [3; 5]%float []).
  - reflexivity.
  - reflexivity.
  - simpl. constructor; [lia | constructor].
Defined.

Lemma roundtrip_when_name_matches_witness :
  name_matches Examples.first_parent /\
  fromJSON Examples.halves (toJSON Examples.first_parent) 7
  = Returned (Examples.first_parent, 7%nat).
Proof.
  split; [reflexivity |].
  apply (roundtrip_when_name_matches Examples.halves Examples.first_parent 7);
    reflexivity.
Defined.

(** ** Records *)

(** X4: a record with a non-empty activation name comes back from
    [toJSON(fromJSON(r))] as it was, whatever the name, and [fromJSON] makes
    no draw. *)
Theorem toJSON_fromJSON (Math_random : nat -> float) (json : Json) (n : nat) :
  j_activationName json <> EmptyString ->
  exists G,
    fromJSON Math_random json n = Returned (G, n) /\ toJSON G = json.
Proof.
  intros Hname. unfold fromJSON, constructor, or_default, or_string, ret.
  cbn [o_weights o_biases o_layers o_activation o_activationName].
  destruct (String.eqb_spec (j_activationName json) EmptyString) as [E | _];
    [contradiction |].
  destruct (String.eqb_spec (j_activationName json) EmptyString) as [E | _];
    [contradiction |].
  eexists. split; [reflexivity |]. destruct json. reflexivity.
Qed.

Lemma toJSON_fromJSON_witness :
  exists G,
    fromJSON Examples.halves (Examples.named "constructor") 0
      = Returned (G, 0%nat) /\
    toJSON G = Examples.named "constructor".
Proof.
  apply (toJSON_fromJSON Examples.halves (Examples.named "constructor") 0).
  discriminate.
Defined.

(** X5: the round trip [fromJSON(toJSON(G))] changes nothing when applied a
    second time: whatever the name and the activation of [G], the network it
    yields is a fixed point of it. *)
Theorem roundtrip_idempotent (Math_random : nat -> float) (G : NeuralNetwork)
    (n : nat) :
  exists G1,
    fromJSON Math_random (toJSON G) n = Returned (G1, n) /\
    fromJSON Math_random (toJSON G1) n = Returned (G1, n).
Proof.
  unfold fromJSON, constructor, ret.
  cbn [toJSON j_layers j_activationName j_weights j_biases o_weights o_biases
       o_layers o_activation o_activationName or_default].
  destruct (String.eqb_spec (activationName G) EmptyString) as [E | Hne].
  - rewrite E. eexists. split; reflexivity.
  - assert (Hkept : or_string (activationName G) "sigmoid" = activationName G).
    { unfold or_string.
      destruct (String.eqb_spec (activationName G) EmptyString);
        [contradiction | reflexivity]. }
    rewrite !Hkept. eexists. split; [reflexivity |].
    cbn [layers activation activationName weights biases].
    rewrite !Hkept. destruct (activationMap (activationName G)); reflexivity.
Qed.

(** ** Crossover of differing topologies *)

Lemma sameSizes_eq (a : list Z) :
  forall b, length a = length b -> sameSizes a b = true -> a = b.
Proof.
  induction a as [| x a IH]; intros [| y b] Hlen Hsame; simpl in *;
    try discriminate; [reflexivity |].
  apply andb_prop in Hsame as [Hxy Hsame]. apply Z.eqb_eq in Hxy.
  rewrite Hxy, (IH b); [reflexivity | lia | exact Hsame].
Qed.

(** X6: [crossover] throws an [Error] whenever the two topologies differ, in
    length or in any size, whatever the rate, the values of [Math.random]
    and the weights and biases of the two networks. *)
Theorem crossover_rejects_other_topology (Math_random : nat -> float)
    (A B : NeuralNetwork) (crossoverRate : option float) (n : nat) :
  layers A <> layers B ->
  exists message,
    crossover Math_random A B crossoverRate n = Thrown (Error message).
Proof.
  intros Hdiff. unfold crossover.
  destruct (length (layers A) =? length (layers B))%nat eqn:Hlen; cbn [negb].
  - destruct (sameSizes (layers A) (layers B)) eqn:Hsame; cbn [negb].
    + exfalso. apply Hdiff. apply sameSizes_eq; [| exact Hsame].
      apply Nat.eqb_eq. exact Hlen.
    + eexists. reflexivity.
  - eexists. reflexivity.
Qed.

Lemma crossover_rejects_other_topology_witness :
  layers Examples.narrow <> layers Examples.broad /\
  exists message,
    crossover Examples.halves Examples.narrow Examples.broad None 0
    = Thrown (Error message).
Proof.
  split; [discriminate |].
  apply (crossover_rejects_other_topology Examples.halves Examples.narrow
           Examples.broad None 0).
  discriminate.
Defined.

(** ** Pruning with a threshold that is not positive *)

Lemma filter_none {A} (p : A -> bool) (l : list A) :
  (forall a, p a = false) -> filter p l = [].
Proof.
  intros Hp. induction l as [| a l IH]; simpl; [reflexivity |].
  rewrite Hp. exact IH.
Qed.

(** X7: with a threshold that is not above 0 (0 itself, a negative number
    or [NaN]) [prune] zeroes nothing: it returns 0 and the network is as it
    was. *)
Theorem prune_threshold_not_positive (G : NeuralNetwork) (t : float) :
  (0 <? t)%float = false ->
  prune G (Some t) = Returned (0%nat, G).
Proof.
  intros Ht.
  assert (Hbelow : forall w, below t w = false).
  { intros w. unfold below, Math_abs.
    destruct (abs w <? t)%float eqn:Hw; [| reflexivity].
    apply abs_below_zero_below in Hw.
    change (abs 0)%float with 0%float in Hw. congruence. }
  unfold prune, or_default. rewrite prune_loops.
  rewrite (filter_none (below t)) by exact Hbelow.
  replace (map (map (map (pruned t))) (weights G)) with (weights G).
  - rewrite with_parameters_same. reflexivity.
  - symmetry. rewrite <- (map_id (weights G)) at 2. apply map_ext. intros Wi.
    rewrite <- (map_id Wi) at 2. apply map_ext. intros row.
    rewrite <- (map_id row) at 2. apply map_ext. intros w.
    unfold pruned. rewrite Hbelow. reflexivity.
Qed.

Lemma prune_threshold_not_positive_witness :
  prune (Examples.sparse 0.001%float) (Some 0%float)
  = Returned (0%nat, Examples.sparse 0.001%float).
Proof.
  apply (prune_threshold_not_positive (Examples.sparse 0.001%float) 0%float).
  reflexivity.
Defined.

(** ** The forward pass and its cell *)

(** A loop whose body leaves the cell alone leaves it alone, and returns or
    throws the same whatever the cell holds. *)
Lemma forEach_pure {St A B} (body : nat -> A -> M St B)
    (f : nat -> A -> outcome B) :
  (forall i a s, body i a s = lift (f i a) s) ->
  forall l i, exists g, forall s, forEach body i l s = lift g s.
Proof.
  intros Hbody. induction l as [| a l IH]; intros i.
  - exists (Returned []). reflexivity.
  - destruct (IH (S i)) as [g' Hg'].
    exists (match f i a with
            | Returned b =>
                match g' with
                | Returned bs => Returned (b :: bs)
                | Thrown e => Thrown e
                end
            | Thrown e => Thrown e
            end).
    intros s. cbn [forEach]. unfold bind at 1. rewrite Hbody.
    destruct (f i a) as [b | e]; cbn [lift]; [| reflexivity].
    unfold bind. rewrite Hg'. destruct g' as [bs | e]; reflexivity.
Qed.

Lemma layers_pure (Math_exp : float -> float) act b W outputs :
  (exists g, forall c : Cache,
     layerStraightforward Math_exp act b W outputs c = lift g c) /\
  (exists g, forall c : Cache,
     layerOptimized Math_exp act b W outputs c = lift g c).
Proof.
  split.
  - unfold layerStraightforward.
    apply (forEach_pure _
             (fun j w =>
                match b with
                | None => Thrown TypeError
                | Some bi =>
                    call Math_exp act
                      (accumulate outputs w 0 (length w) (elem bi j))
                end)).
    intros j w s. destruct b; reflexivity.
  - unfold layerOptimized. destruct W as [| w0 W'].
    + exists (Thrown TypeError). reflexivity.
    + apply (forEach_pure _
               (fun j w =>
                  match b with
                  | None => Thrown TypeError
                  | Some bi =>
                      call Math_exp act
                        (accumulateUnrolled (length w0) outputs w (elem bi j))
                  end)).
      intros j w s. destruct b; reflexivity.
Qed.

Lemma last_cons_default {A} (a d : A) (l : list A) :
  last (a :: l) d = last l a.
Proof.
  revert a d. induction l as [| b l IH]; intros a d; [reflexivity |].
  change (last (a :: b :: l) d) with (last (b :: l) d).
  rewrite (IH b d), (IH b a). reflexivity.
Qed.

(** What the layers append to the cell: one entry per layer, the last of
    them the value returned; nothing of it depends on what the cell held. *)
Lemma forwardLayers_trace layer act bs :
  (forall b W outputs, exists g, forall c : Cache,
     layer act b W outputs c = lift g c) ->
  forall ws i outputs,
    (exists out tail,
       length tail = length ws /\ last tail outputs = out /\
       forall c, forwardLayers layer act bs i ws outputs c
                 = Returned (out, (c ++ tail)%list)) \/
    (exists e, forall c, forwardLayers layer act bs i ws outputs c = Thrown e).
Proof.
  intros Hlayer. induction ws as [| W ws IH]; intros i outputs.
  - left. exists outputs, []. repeat split.
    intros c. rewrite app_nil_r. reflexivity.
  - destruct (Hlayer (nth_error bs i) W outputs) as [[lo | e] Hg].
    + destruct (IH (S i) lo) as [(out & tail & Hlen & Hlast & Hrun) | [e Hrun]].
      * left. exists out, (lo :: tail). split; [simpl; congruence |]. split.
        -- rewrite last_cons_default. exact Hlast.
        -- intros c. cbn [forwardLayers]. unfold bind at 1. rewrite Hg.
           cbn [lift]. unfold bind at 1, push. rewrite Hrun.
           rewrite <- app_assoc. reflexivity.
      * right. exists e. intros c. cbn [forwardLayers]. unfold bind at 1.
        rewrite Hg. cbn [lift]. unfold bind at 1, push. apply Hrun.
    + right. exists e. intros c. cbn [forwardLayers]. unfold bind at 1.
      rewrite Hg. reflexivity.
Qed.

Lemma feedForward_trace (Math_exp : float -> float) (G : NeuralNetwork)
    (inputs : list float) :
  (exists out tail,
     length tail = length (weights G) /\ last tail inputs = out /\
     forall c, feedForward Math_exp G inputs c
               = Returned (out, inputs :: tail)) \/
  (exists e, forall c, feedForward Math_exp G inputs c = Thrown e).
Proof.
  assert (Hboth : forall layer,
            (forall b W outputs, exists g, forall c : Cache,
               layer (activation G) b W outputs c = lift g c) ->
            (exists out tail,
               length tail = length (weights G) /\ last tail inputs = out /\
               forall c : Cache,
                 bind (put [inputs])
                   (fun _ => forwardLayers layer (activation G) (biases G) 0
                               (weights G) inputs) c
                 = Returned (out, inputs :: tail)) \/
            (exists e, forall c : Cache,
               bind (put [inputs])
                 (fun _ => forwardLayers layer (activation G) (biases G) 0
                             (weights G) inputs) c = Thrown e)).
  { intros layer Hlayer.
    destruct (forwardLayers_trace layer (activation G) (biases G) Hlayer
                (weights G) 0 inputs)
      as [(out & tail & Hlen & Hlast & Hrun) | [e Hrun]].
    - left. exists out, tail. repeat split; try assumption.
      intros c. unfold bind, put. rewrite Hrun. reflexivity.
    - right. exists e. intros c. unfold bind, put. apply Hrun. }
  unfold feedForward, feedForwardOptimized.
  destruct (useOptimizedOperations G); apply Hboth; intros b W outputs;
    apply layers_pure.
Qed.

(** X8: when [feedForward] returns, [layerOutputs] holds the input vector
    followed by one vector per layer, the last of them the vector returned,
    and nothing else: what it held before the call is discarded and has no
    effect on the call. *)
Theorem feedForward_layerOutputs (Math_exp : float -> float)
    (G : NeuralNetwork) (inputs : list float) (cache : Cache)
    (out : list float) (cache' : Cache) :
  feedForward Math_exp G inputs cache = Returned (out, cache') ->
  length cache' = S (length (weights G)) /\
  hd_error cache' = Some inputs /\
  last cache' inputs = out /\
  forall cache0, feedForward Math_exp G inputs cache0 = Returned (out, cache').
Proof.
  intros Hrun.
  destruct (feedForward_trace Math_exp G inputs)
    as [(out0 & tail & Hlen & Hlast & Hall) | [e Hall]].
  - rewrite Hall in Hrun. injection Hrun as <- <-.
    split; [simpl; congruence |]. split; [reflexivity |].
    split; [rewrite last_cons_default; exact Hlast | exact Hall].
  - rewrite Hall in Hrun. discriminate.
Qed.

Lemma feedForward_layerOutputs_witness :
  feedForward Examples.unused_exp Examples.pair_in [3; 5]%float [[7%float]]
  = Returned ([8%float], [[3; 5]; [8]]%float) /\
  length [[3; 5]; [8]]%float = S (length (weights Examples.pair_in)) /\
  forall cache0,
    feedForward Examples.unused_exp Examples.pair_in [3; 5]%float cache0
    = Returned ([8%float], [[3; 5]; [8]]%float).
Proof.
  assert (Hrun : feedForward Examples.unused_exp Examples.pair_in
                   [3; 5]%float [[7%float]]
                 = Returned ([8%float], [[3; 5]; [8]]%float))
    by reflexivity.
  destruct (feedForward_layerOutputs Examples.unused_exp Examples.pair_in
              [3; 5]%float [[7%float]] [8%float] [[3; 5]; [8]]%float Hrun)
    as (Hlen & _ & _ & Hall).
  split; [exact Hrun |]. split; [exact Hlen | exact Hall].
Defined.

(** ** Inputs beyond the first layer's width *)

Lemma fold_left_ext_in {A B} (f g : A -> B -> A) (l : list B) :
  (forall a b, In b l -> f a b = g a b) ->
  forall a, fold_left f l a = fold_left g l a.
Proof.
  induction l as [| b l IH]; intros Hext a; simpl; [reflexivity |].
  rewrite (Hext a b (or_introl eq_refl)). apply IH.
  intros a' b' Hin. apply Hext. right. exact Hin.
Qed.

(** The plain loop reads its inputs at the indices it visits only. *)
Lemma accumulate_agree (o1 o2 w : list float) (from count : nat) (sum : float) :
  (forall k, (from <= k < from + count)%nat -> elem o1 k = elem o2 k) ->
  accumulate o1 w from count sum = accumulate o2 w from count sum.
Proof.
  intros Hagree. unfold accumulate. apply fold_left_ext_in.
  intros a k Hin. apply in_seq in Hin. rewrite (Hagree k Hin). reflexivity.
Qed.

(** The unrolled loop reads its inputs below [prevLayerSize] only. *)
Lemma accumulateUnrolled_agree (n : nat) (o1 o2 w : list float) (sum : float) :
  (forall k, (k < n)%nat -> elem o1 k = elem o2 k) ->
  accumulateUnrolled n o1 w sum = accumulateUnrolled n o2 w sum.
Proof.
  intros Hagree. unfold accumulateUnrolled. apply fold_left_ext_in.
  intros a k _. destruct (k + 3 <? n)%nat eqn:Hblock.
  - apply Nat.ltb_lt in Hblock.
    rewrite (Hagree k), (Hagree (k + 1)%nat), (Hagree (k + 2)%nat),
      (Hagree (k + 3)%nat) by lia.
    reflexivity.
  - apply accumulate_agree. intros j Hj. apply Hagree. lia.
Qed.

Lemma elem_app_left (inputs surplus : list float) (k : nat) :
  (k < length inputs)%nat -> elem (inputs ++ surplus) k = elem inputs k.
Proof. intros Hk. unfold elem. apply app_nth1. exact Hk. Qed.

Lemma first_layer_ignores_surplus (Math_exp : float -> float) act b W
    (inputs surplus : list float) (c : Cache) :
  Forall (fun row => length row = length inputs) W ->
  layerOptimized Math_exp act b W (inputs ++ surplus) c
  = layerOptimized Math_exp act b W inputs c /\
  layerStraightforward Math_exp act b W (inputs ++ surplus) c
  = layerStraightforward Math_exp act b W inputs c.
Proof.
  intros Hrows. rewrite Forall_forall in Hrows. split.
  - unfold layerOptimized. destruct W as [| w0 W']; [reflexivity |].
    apply forEach_ext. intros j w s Hin. destruct b as [bi |]; [| reflexivity].
    rewrite (accumulateUnrolled_agree (length w0) (inputs ++ surplus) inputs);
      [reflexivity |].
    intros k Hk. apply elem_app_left.
    rewrite <- (Hrows w0 (or_introl eq_refl)). exact Hk.
  - unfold layerStraightforward.
    apply forEach_ext. intros j w s Hin. destruct b as [bi |]; [| reflexivity].
    rewrite (accumulate_agree (inputs ++ surplus) inputs); [reflexivity |].
    intros k Hk. apply elem_app_left. rewrite <- (Hrows w Hin). lia.
Qed.

(** X9: on a well-formed genome, whose first layer takes [n0] inputs,
    [feedForward] reads the first [n0] entries of its argument only: entries
    appended to an input vector of length [n0] change neither what the call
    returns nor whether it throws. *)
Theorem feedForward_ignores_surplus_inputs (Math_exp : float -> float)
    (G : NeuralNetwork) (inputs surplus : list float) (cache : Cache) :
  well_formed G ->
  weights G <> [] ->
  Z.of_nat (length inputs) = hd 0%Z (layers G) ->
  result (feedForward Math_exp G (inputs ++ surplus) cache)
  = result (feedForward Math_exp G inputs cache).
Proof.
  unfold well_formed. intros Hwf Hws Hlen.
  destruct (weights G) as [| W ws] eqn:HW; [contradiction |].
  assert (Hrows : Forall (fun row => length row = length inputs) W).
  { destruct (layers G) as [| n0 [| n1 rest]], (biases G) as [| bi B];
      try discriminate.
    change (shape_ok (n0 :: n1 :: rest) (W :: ws) (bi :: B))
      with ((Z.of_nat (length W) =? n1)%Z
            && forallb (fun row => (Z.of_nat (length row) =? n0)%Z) W
            && (Z.of_nat (length bi) =? n1)%Z
            && shape_ok (n1 :: rest) ws B) in Hwf.
    apply andb_prop in Hwf as [Hwf _]. apply andb_prop in Hwf as [Hwf _].
    apply andb_prop in Hwf as [_ Hrows]. rewrite forallb_forall in Hrows.
    apply Forall_forall. intros row Hin. specialize (Hrows row Hin).
    apply Z.eqb_eq in Hrows. simpl in Hlen. lia. }
  assert (Hboth : forall layer,
            (forall b W outputs, exists g, forall c : Cache,
               layer (activation G) b W outputs c = lift g c) ->
            (forall c, layer (activation G) (nth_error (biases G) 0) W
                             (inputs ++ surplus) c
                       = layer (activation G) (nth_error (biases G) 0) W
                               inputs c) ->
            result (bind (put [inputs ++ surplus])
                      (fun _ => forwardLayers layer (activation G) (biases G) 0
                                  (W :: ws) (inputs ++ surplus)) cache)
            = result (bind (put [inputs])
                        (fun _ => forwardLayers layer (activation G) (biases G)
                                    0 (W :: ws) inputs) cache)).
  { intros layer Hpure Hfirst. unfold bind, put.
    cbn [forwardLayers]. unfold bind at 1 3. rewrite Hfirst.
    destruct (Hpure (nth_error (biases G) 0) W inputs) as [[lo | e] Hg];
      rewrite !Hg; cbn [lift]; [| reflexivity].
    unfold bind, push.
    destruct (forwardLayers_trace layer (activation G) (biases G) Hpure
                ws 1 lo) as [(out & tail & _ & _ & Hrun) | [e Hrun]];
      rewrite !Hrun; reflexivity. }
  unfold feedForward, feedForwardOptimized. rewrite HW.
  destruct (useOptimizedOperations G); apply Hboth.
  - intros b W0 outputs. apply layers_pure.
  - intros c. apply first_layer_ignores_surplus. exact Hrows.
  - intros b W0 outputs. apply layers_pure.
  - intros c. apply first_layer_ignores_surplus. exact Hrows.
Qed.

Lemma feedForward_ignores_surplus_inputs_witness :
  well_formed Examples.pair_in /\
  Z.of_nat (length [3; 5]%float) = hd 0%Z (layers Examples.pair_in) /\
  result (feedForward Examples.unused_exp Examples.pair_in
            ([3; 5] ++ [100; 200])%float [])
  = result (feedForward Examples.unused_exp Examples.pair_in [3; 5]%float []).
Proof.
  split; [reflexivity |]. split; [reflexivity |].
  apply (feedForward_ignores_surplus_inputs Examples.unused_exp
           Examples.pair_in [3; 5]%float [100; 200]%float []).
  - reflexivity.
  - discriminate.
  - reflexivity.
Defined.

(** ** A layer without neurons *)

Lemma forEach_Forall {St A B} (P : B -> Prop) (body : nat -> A -> M St B) :
  (forall i a s b s', body i a s = Returned (b, s') -> P b) ->
  forall l i s bs s', forEach body i l s = Returned (bs, s') -> Forall P bs.
Proof.
  intros Hbody. induction l as [| a l IH]; intros i s bs s' Hrun.
  - injection Hrun as <- _. constructor.
  - cbn [forEach] in Hrun. unfold bind at 1 in Hrun.
    destruct (body i a s) as [[b s1] | e] eqn:Hb; [| discriminate].
    unfold bind in Hrun.
    destruct (forEach body (S i) l s1) as [[bs' s2] | e] eqn:Hbs;
      [| discriminate].
    injection Hrun as <- _. constructor.
    + exact (Hbody _ _ _ _ _ Hb).
    + exact (IH _ _ _ _ Hbs).
Qed.

Lemma forEach_thrown {St A B} (body : nat -> A -> M St B) (e0 : error) :
  (forall i a s e, body i a s = Thrown e -> e = e0) ->
  forall l i s e, forEach body i l s = Thrown e -> e = e0.
Proof.
  intros Hbody. induction l as [| a l IH]; intros i s e Hrun;
    [discriminate |].
  cbn [forEach] in Hrun. unfold bind at 1 in Hrun.
  destruct (body i a s) as [[b s1] | e1] eqn:Hb.
  - unfold bind in Hrun.
    destruct (forEach body (S i) l s1) as [[bs' s2] | e2] eqn:Hbs;
      [discriminate |].
    injection Hrun as <-. exact (IH _ _ _ Hbs).
  - injection Hrun as <-. exact (Hbody _ _ _ _ Hb).
Qed.

(** An activation throws nothing but a [TypeError]. *)
Lemma call_thrown (Math_exp : float -> float) (f : Callable) (x : float) e :
  call Math_exp f x = Thrown e -> e = TypeError.
Proof.
  destruct f as [[] | key | g]; cbn [call]; try discriminate.
  repeat match goal with
         | |- context [if ?c then _ else _] => destruct c; try discriminate
         end.
  intros H. injection H as <-. reflexivity.
Qed.

Lemma layerOptimized_thrown (Math_exp : float -> float) act b W outputs
    (c : Cache) e :
  layerOptimized Math_exp act b W outputs c = Thrown e -> e = TypeError.
Proof.
  unfold layerOptimized. destruct W as [| w0 W'].
  - intros H. injection H as <-. reflexivity.
  - apply forEach_thrown. intros j w s e1. destruct b as [bi |].
    + unfold lift.
      destruct (call Math_exp act _) as [y | e2] eqn:Hcall; [discriminate |].
      intros H. injection H as <-. exact (call_thrown _ _ _ _ Hcall).
    + intros H. injection H as <-. reflexivity.
Qed.

Lemma forwardLayers_empty_layer (Math_exp : float -> float) act bs :
  forall ws i outputs (c : Cache),
    In [] ws ->
    forwardLayers (layerOptimized Math_exp) act bs i ws outputs c
    = Thrown TypeError.
Proof.
  induction ws as [| W ws IH]; intros i outputs c Hin; [contradiction |].
  cbn [forwardLayers]. unfold bind at 1.
  destruct (layerOptimized Math_exp act (nth_error bs i) W outputs c)
    as [[lo c1] | e] eqn:Hlayer.
  - unfold bind, push. apply IH. destruct Hin as [-> | Hin]; [| exact Hin].
    discriminate.
  - rewrite (layerOptimized_thrown _ _ _ _ _ _ _ Hlayer). reflexivity.
Qed.

(** X10: on a network one of whose layers has no neuron, as the constructor
    builds from a topology with a 0 after its first entry, [feedForward]
    with the optimized pass on throws a [TypeError] for every input: the
    pass reads the length of the first row of each layer. *)
Theorem feedForward_empty_layer_throws (Math_exp : float -> float)
    (G : NeuralNetwork) (inputs : list float) (cache : Cache) :
  useOptimizedOperations G = true ->
  In [] (weights G) ->
  feedForward Math_exp G inputs cache = Thrown TypeError.
Proof.
  intros Hflag Hin. unfold feedForward, feedForwardOptimized. rewrite Hflag.
  unfold bind, put. apply forwardLayers_empty_layer. exact Hin.
Qed.

Lemma feedForward_empty_layer_throws_witness :
  constructor Examples.halves (Examples.only_layers [2; 0; 1]%Z) 0
  = Returned (Callers.hollow, 1%nat) /\
  feedForward Examples.unused_exp Callers.hollow [1; 1]%float []
  = Thrown TypeError.
Proof.
  split; [reflexivity |].
  apply (feedForward_empty_layer_throws Examples.unused_exp Callers.hollow
           [1; 1]%float []).
  - reflexivity.
  - left. reflexivity.
Defined.

(** ** The range of relu networks *)

Lemma sign_cases (x : float) :
  is_nan x = true \/ (0 <? x)%float = true \/ (x <? 0)%float = true \/
  (x =? 0)%float = true.
Proof.
  unfold is_nan. rewrite !ltb_spec, !FloatAxioms.eqb_spec, Prim2SF_0.
  unfold SFltb, SFeqb, SFcompare.
  destruct (Prim2SF x) as [s | s | | s m e]; try destruct s; auto.
Qed.

Lemma above_0_not_below (x : float) :
  (0 <? x)%float = true -> (x <? 0)%float = false.
Proof.
  rewrite !ltb_spec, Prim2SF_0. unfold SFltb, SFcompare.
  destruct (Prim2SF x) as [s | s | | s m e]; try destruct s;
    try congruence; try reflexivity.
Qed.

(** [relu] returns no number below 0. *)
Lemma relu_not_negative (x : float) : (relu x <? 0)%float = false.
Proof.
  destruct (Math_max_0 x) as (Hpos & Hneg & Hzero & Hnan). unfold relu.
  destruct (sign_cases x) as [H | [H | [H | H]]].
  - rewrite (Hnan H). reflexivity.
  - rewrite (Hpos H). exact (above_0_not_below x H).
  - rewrite (Hneg H). reflexivity.
  - rewrite (Hzero H). reflexivity.
Qed.

Lemma relu_layers_not_negative (Math_exp : float -> float) b W outputs
    (c : Cache) lo c' :
  (layerOptimized Math_exp (Static Relu) b W outputs c = Returned (lo, c') ->
   Forall (fun y => (y <? 0)%float = false) lo) /\
  (layerStraightforward Math_exp (Static Relu) b W outputs c
   = Returned (lo, c') ->
   Forall (fun y => (y <? 0)%float = false) lo).
Proof.
  split.
  - unfold layerOptimized. destruct W as [| w0 W']; [discriminate |].
    apply forEach_Forall. intros j w s y s'.
    destruct b as [bi |]; [| discriminate].
    cbn [call lift]. intros H. injection H as <- _. apply relu_not_negative.
  - unfold layerStraightforward.
    apply forEach_Forall. intros j w s y s'.
    destruct b as [bi |]; [| discriminate].
    cbn [call lift]. intros H. injection H as <- _. apply relu_not_negative.
Qed.

Lemma forwardLayers_last_layer (P : float -> Prop) layer act bs :
  (forall b W outputs (c : Cache) lo c',
     layer act b W outputs c = Returned (lo, c') -> Forall P lo) ->
  forall ws i outputs c out c',
    ws <> [] ->
    forwardLayers layer act bs i ws outputs c = Returned (out, c') ->
    Forall P out.
Proof.
  intros Hlayer. induction ws as [| W ws IH]; intros i outputs c out c' Hws Hrun;
    [contradiction |].
  cbn [forwardLayers] in Hrun. unfold bind at 1 in Hrun.
  destruct (layer act (nth_error bs i) W outputs c) as [[lo c1] | e] eqn:Hlo;
    [| discriminate].
  unfold bind, push in Hrun. destruct ws as [| W' ws'].
  - injection Hrun as <- _. exact (Hlayer _ _ _ _ _ _ Hlo).
  - apply (IH _ _ _ _ _ ltac:(discriminate) Hrun).
Qed.

(** X11: a network bound to relu that has at least one layer returns no
    number below 0: every entry of the vector [feedForward] returns is 0 or
    above, or [NaN]. *)
Theorem relu_outputs_not_negative (Math_exp : float -> float)
    (G : NeuralNetwork) (inputs : list float) (cache : Cache)
    (out : list float) (cache' : Cache) :
  activation G = Static Relu ->
  weights G <> [] ->
  feedForward Math_exp G inputs cache = Returned (out, cache') ->
  Forall (fun y => (y <? 0)%float = false) out.
Proof.
  intros Hact Hws. unfold feedForward, feedForwardOptimized. rewrite Hact.
  destruct (useOptimizedOperations G); unfold bind, put; intros Hrun.
  - apply (forwardLayers_last_layer _ _ _ _
             (fun b W outputs c lo c' =>
                proj1 (relu_layers_not_negative Math_exp b W outputs c lo c'))
             _ _ _ _ _ _ Hws Hrun).
  - apply (forwardLayers_last_layer _ _ _ _
             (fun b W outputs c lo c' =>
                proj2 (relu_layers_not_negative Math_exp b W outputs c lo c'))
             _ _ _ _ _ _ Hws Hrun).
Qed.

Lemma relu_outputs_not_negative_witness :
  feedForward Examples.unused_exp Examples.pair_in [-3; -5]%float []
  = Returned ([0%float], [[-3; -5]; [0]]%float) /\
  Forall (fun y => (y <? 0)%float = false) [0%float].
Proof.
  assert (Hrun : feedForward Examples.unused_exp Examples.pair_in
                   [-3; -5]%float []
                 = Returned ([0%float], [[-3; -5]; [0]]%float))
    by reflexivity.
  split; [exact Hrun |].
  apply (relu_outputs_not_negative Examples.unused_exp Examples.pair_in
           [-3; -5]%float [] [0%float] [[-3; -5]; [0]]%float).
  - reflexivity.
  - discriminate.
  - exact Hrun.
Defined.

(** ** A network fresh from the constructor *)

Lemma feedForward_returns_length (Math_exp : float -> float)
    (G : NeuralNetwork) (inputs : list float) (cache : Cache) :
  valid_topology (layers G) = true ->
  well_formed G ->
  activation_returns Math_exp (activation G) ->
  exists out cache',
    feedForward Math_exp G inputs cache = Returned (out, cache') /\
    Z.of_nat (length out) = last (layers G) 0%Z.
Proof.
  intros Hvalid Hwf Hact. unfold valid_topology in Hvalid.
  apply andb_prop in Hvalid as [Hlen Hpos]. apply Nat.leb_le in Hlen.
  unfold well_formed in Hwf.
  assert (Hws : weights G <> []).
  { intros E. rewrite E in Hwf.
    destruct (layers G) as [| n0 [| n1 rest]]; simpl in *;
      try lia; try discriminate. }
  assert (Hrun : forall layer, layer_returns (activation G) layer ->
            exists out cache',
              forwardLayers layer (activation G) (biases G) 0 (weights G)
                            inputs [inputs] = Returned (out, cache') /\
              Z.of_nat (length out) = last (layers G) 0%Z).
  { intros layer Hlayer.
    destruct (forwardLayers_returns (activation G) layer (biases G)
                Hlayer (weights G) (layers G) 0 inputs [inputs] Hpos Hwf)
      as (out & cache' & Hrun & Hout).
    exists out, cache'. split; [exact Hrun |].
    destruct (weights G); [contradiction | exact Hout]. }
  unfold feedForward, feedForwardOptimized.
  destruct (useOptimizedOperations G); unfold bind, put; apply Hrun.
  - apply layerOptimized_returns. exact Hact.
  - apply layerStraightforward_returns. exact Hact.
Qed.

Lemma positive_sizes_not_negative (sizes : list Z) :
  forallb (fun n => (0 <? n)%Z) sizes = true ->
  forallb (fun z => (0 <=? z)%Z) sizes = true.
Proof.
  induction sizes as [| n sizes IH]; simpl; [reflexivity |].
  intros H. apply andb_prop in H as [Hn H]. apply Z.ltb_lt in Hn.
  rewrite (IH H). replace (0 <=? n)%Z with true; [reflexivity |].
  symmetry. apply Z.leb_le. lia.
Qed.

(** X12: a network built by [new NeuralNetwork({ layers })] from a topology
    of at least two positive sizes can be evaluated at once: [feedForward]
    returns, on an input of any length and for every draw of the random
    initialization, a vector as long as the last size.  This is the use
    [testNeuralNetworkEfficiency] makes of the class. *)
Theorem fresh_network_evaluates (Math_random : nat -> float)
    (Math_exp : float -> float) (sizes : list Z) (n : nat)
    (inputs : list float) (cache : Cache) :
  valid_topology sizes = true ->
  exists G n' out cache',
    constructor Math_random (Examples.only_layers sizes) n = Returned (G, n') /\
    feedForward Math_exp G inputs cache = Returned (out, cache') /\
    Z.of_nat (length out) = last sizes 0%Z.
Proof.
  intros Hvalid.
  assert (Hpos : forallb (fun z => (0 <=? z)%Z) sizes = true).
  { unfold valid_topology in Hvalid. apply andb_prop in Hvalid as [_ Hpos].
    apply positive_sizes_not_negative. exact Hpos. }
  destruct (initialize_shape_ok Math_random sizes Hpos n)
    as (W & B & n' & Hinit & Hshape).
  set (G := {| layers := sizes; activation := Static Sigmoid;
               activationName := "sigmoid"; weights := W; biases := B;
               useOptimizedOperations := true |}).
  destruct (feedForward_returns_length Math_exp G inputs cache)
    as (out & cache' & Hrun & Hlen).
  - exact Hvalid.
  - exact Hshape.
  - intros x. eexists. reflexivity.
  - exists G, n', out, cache'. split; [| split; assumption].
    unfold constructor, Examples.only_layers, or_default.
    cbn [o_layers o_activation o_activationName o_weights o_biases].
    unfold bind. rewrite Hinit. reflexivity.
Qed.

Lemma fresh_network_evaluates_witness :
  valid_topology [10; 5; 3]%Z = true /\
  exists G n' out cache',
    constructor Examples.halves (Examples.only_layers [10; 5; 3]%Z) 0
      = Returned (G, n') /\
    feedForward Examples.unused_exp G
                [1; 2; 3; 4; 5; 6; 7; 8; 9; 10]%float []
      = Returned (out, cache') /\
    Z.of_nat (length out) = last [10; 5; 3]%Z 0%Z.
Proof.
  split; [reflexivity |].
  apply (fresh_network_evaluates Examples.halves Examples.unused_exp
           [10; 5; 3]%Z 0 [1; 2; 3; 4; 5; 6; 7; 8; 9; 10]%float []).
  reflexivity.
Defined.

(** ** Copies *)

Lemma forEach_ret {St A} (l : list A) :
  forall i (s : St), forEach (fun _ a => ret a) i l s = Returned (l, s).
Proof.
  induction l as [| a l IH]; intros i s; simpl; [reflexivity |].
  unfold bind, ret. unfold ret in IH. rewrite IH. reflexivity.
Qed.

Lemma forEach_ret_rows {St A} (W : list (list A)) :
  forall i (s : St),
    forEach (fun _ Wi => forEach (fun _ row => ret row) 0%nat Wi) i W s
    = Returned (W, s).
Proof.
  induction W as [| Wi W IH]; intros i s; simpl; [reflexivity |].
  unfold bind at 1. rewrite forEach_ret. unfold bind. rewrite IH.
  reflexivity.
Qed.

(** X13: [clone] makes no draw and returns a network with the topology, the
    activation function, the weights and the biases of the original.  The
    flag of the optimized pass is not copied but set: the clone evaluates
    every input as the optimized pass of the original does. *)
Theorem clone_copies (Math_random : nat -> float) (Math_exp : float -> float)
    (G : NeuralNetwork) (n : nat) :
  exists G',
    clone Math_random G n = Returned (G', n) /\
    layers G' = layers G /\
    activation G' = activation G /\
    weights G' = weights G /\
    biases G' = biases G /\
    useOptimizedOperations G' = true /\
    forall inputs cache,
      feedForward Math_exp G' inputs cache
      = feedForwardOptimized Math_exp G inputs cache.
Proof.
  eexists. split.
  - unfold clone. unfold bind at 1. rewrite forEach_ret_rows.
    unfold bind at 1. rewrite forEach_ret. reflexivity.
  - repeat split.
Qed.

(** ** The calls of the [Simulation] class *)

(** X14: when the first argument of [new NeuralNetwork(...)] is not an
    object, as at both call sites of the [Simulation] class, which pass
    sizes positionally, every argument is ignored: the network has the
    default topology [3, 4, 2] and sigmoid, its 26 parameters drawn at
    random. *)
Theorem positional_arguments_ignored (Math_random : nat -> float)
    (arguments : list Argument) (n : nat) :
  options_of (hd ArgUndefined arguments) = no_options ->
  exists G,
    new_NeuralNetwork Math_random arguments n = Returned (G, (26 + n)%nat) /\
    layers G = [3; 4; 2]%Z /\
    activation G = Static Sigmoid /\
    activationName G = "sigmoid"%string /\
    well_formed G /\
    length (parameters G) = 26%nat.
Proof.
  intros Hnone. unfold new_NeuralNetwork. rewrite Hnone.
  eexists. split; [reflexivity |]. repeat split.
Qed.

Lemma positional_arguments_ignored_witness :
  (exists G,
     new_NeuralNetwork Examples.halves Callers.standardNetwork_arguments 0
       = Returned (G, 26%nat) /\
     layers G = [3; 4; 2]%Z) /\
  (exists G,
     new_NeuralNetwork Examples.halves Callers.creature_arguments 0
       = Returned (G, 26%nat) /\
     layers G = [3; 4; 2]%Z /\ activation G = Static Sigmoid).
Proof.
  destruct (positional_arguments_ignored Examples.halves
              Callers.standardNetwork_arguments 0 eq_refl)
    as (G1 & Hrun1 & Hlayers1 & _).
  destruct (positional_arguments_ignored Examples.halves
              Callers.creature_arguments 0 eq_refl)
    as (G2 & Hrun2 & Hlayers2 & Hact2 & _).
  split.
  - exists G1. split; assumption.
  - exists G2. split; [assumption | split; assumption].
Defined.

(** ** Counting the draws of a loop *)

Lemma Indexed_Forall2 {A B} (R : nat -> A -> B -> Prop) (Q : A -> B -> Prop)
    i l bs :
  (forall k a b, R k a b -> Q a b) -> Indexed R i l bs -> Forall2 Q l bs.
Proof. intros HRQ. induction 1; constructor; eauto. Qed.

Lemma Indexed_nth_error {A B} (R : nat -> A -> B -> Prop) i l bs :
  Indexed R i l bs ->
  forall k b, nth_error bs k = Some b ->
  exists a, nth_error l k = Some a /\ R (i + k)%nat a b.
Proof.
  induction 1 as [i | i a b l bs Hab _ IH]; intros [| k] b' Hk; simpl in *;
    try discriminate.
  - injection Hk as <-. exists a. rewrite Nat.add_0_r. auto.
  - destruct (IH k b' Hk) as (a' & Ha' & HR). exists a'.
    replace (i + S k)%nat with (S i + k)%nat by lia. auto.
Qed.

Lemma list_sum_const {A} (c : nat) (l : list A) :
  list_sum (map (fun _ => c) l) = (c * length l)%nat.
Proof. induction l as [| a l IH]; simpl; [lia |]. rewrite IH. lia. Qed.

Lemma list_sum_scaled {A} (h : nat) (f : A -> nat) (l : list A) :
  list_sum (map (fun a => h * f a)%nat l) = (h * list_sum (map f l))%nat.
Proof. induction l as [| a l IH]; simpl; [lia |]. rewrite IH. lia. Qed.

(** A loop over a counter of draws: when every round makes between [lo] and
    [hi] draws, by its element, the loop makes between the sums of them. *)
Lemma forEach_between {A B} (lo hi : A -> nat) (R : nat -> A -> B -> Prop)
    (body : nat -> A -> M nat B) (l : list A) :
  forall i,
    (forall k a s, nth_error l k = Some a ->
       exists b s', body (i + k)%nat a s = Returned (b, s') /\
                    (s + lo a <= s')%nat /\ (s' <= s + hi a)%nat /\
                    R (i + k)%nat a b) ->
    forall s,
    exists bs s', forEach body i l s = Returned (bs, s') /\
                  (s + list_sum (map lo l) <= s')%nat /\
                  (s' <= s + list_sum (map hi l))%nat /\
                  Indexed R i l bs.
Proof.
  induction l as [| a l IH]; intros i Hbody s.
  - exists [], s. simpl. split; [reflexivity |]. split; [lia |].
    split; [lia |]. constructor.
  - destruct (Hbody 0%nat a s eq_refl) as (b & s1 & Hb & Hlo & Hhi & HR).
    rewrite Nat.add_0_r in Hb, HR.
    destruct (IH (S i)) with (s := s1) as (bs & s2 & Hbs & Hlo2 & Hhi2 & Hind).
    { intros k a' s' Hk.
      replace (S i + k)%nat with (i + S k)%nat by lia.
      apply Hbody. exact Hk. }
    exists (b :: bs), s2. cbn [forEach]. unfold bind, ret.
    rewrite Hb, Hbs. simpl. split; [reflexivity |]. split; [lia |].
    split; [lia |]. constructor; assumption.
Qed.

(** The same over the rows of a matrix of numbers, each element making
    between one and [h] draws: the loops return a matrix of the same shape,
    each of whose elements stands in [P] to the element it replaces. *)
Lemma forEach_rows_between (h : nat) (P : nat -> nat -> float -> float -> Prop)
    (body : nat -> nat -> float -> M nat float) (Wi : list (list float)) :
  (forall j k a s, entry2 Wi j k = Some a ->
     exists b s', body j k a s = Returned (b, s') /\
                  (s + 1 <= s')%nat /\ (s' <= s + h)%nat /\ P j k a b) ->
  forall s,
  exists Wi' s',
    forEach (fun j row => forEach (fun k a => body j k a) 0%nat row) 0%nat Wi s
    = Returned (Wi', s') /\
    (s + length (concat Wi) <= s')%nat /\
    (s' <= s + h * length (concat Wi))%nat /\
    Forall2 same_shape Wi Wi' /\
    forall j k b, entry2 Wi' j k = Some b ->
                  exists a, entry2 Wi j k = Some a /\ P j k a b.
Proof.
  intros Hbody s.
  destruct (forEach_between (fun row => length row)
              (fun row => (h * length row)%nat)
              (fun j row row' =>
                 same_shape row row' /\
                 forall k b, nth_error row' k = Some b ->
                             exists a, nth_error row k = Some a /\ P j k a b)
              (fun j row => forEach (fun k a => body j k a) 0%nat row) Wi 0)
    with (s := s) as (Wi' & s' & Hrun & Hlo & Hhi & Hind).
  - intros j row s0 Hrow. cbn [Nat.add].
    destruct (forEach_between (fun _ => 1%nat) (fun _ => h)
                (fun k a b => P j k a b) (fun k a => body j k a) row 0)
      with (s := s0) as (row' & s1 & Hrun1 & Hlo1 & Hhi1 & Hind1).
    + intros k a s2 Ha. cbn [Nat.add]. apply Hbody.
      unfold entry2. rewrite Hrow. exact Ha.
    + rewrite list_sum_const in Hlo1, Hhi1.
      exists row', s1. split; [exact Hrun1 |]. split; [lia |].
      split; [lia |]. split.
      * exact (Indexed_Forall2 _ _ _ _ _ (fun _ _ _ _ => I) Hind1).
      * intros k b Hb.
        destruct (Indexed_nth_error _ _ _ _ Hind1 k b Hb) as (a & Ha & HP).
        exists a. auto.
  - rewrite list_sum_scaled in Hhi. rewrite <- length_concat in Hlo, Hhi.
    exists Wi', s'. split; [exact Hrun |]. split; [exact Hlo |].
    split; [exact Hhi |]. split.
    + exact (Indexed_Forall2 _ _ _ _ _ (fun _ _ _ H => proj1 H) Hind).
    + intros j k b Hb. unfold entry2 in Hb.
      destruct (nth_error Wi' j) as [row' |] eqn:Hrow'; [| discriminate].
      destruct (Indexed_nth_error _ _ _ _ Hind j row' Hrow')
        as (row & Hrow & _ & Hrows).
      destruct (Hrows k b Hb) as (a & Ha & HP).
      exists a. unfold entry2. rewrite Hrow. auto.
Qed.

(** The same over the layers of a network's weights. *)
Lemma forEach_layers_between (h : nat)
    (P : nat -> nat -> nat -> float -> float -> Prop)
    (body : nat -> nat -> nat -> float -> M nat float)
    (W : list (list (list float))) :
  (forall i j k a s, entry3 W i j k = Some a ->
     exists b s', body i j k a s = Returned (b, s') /\
                  (s + 1 <= s')%nat /\ (s' <= s + h)%nat /\ P i j k a b) ->
  forall s,
  exists W' s',
    forEach (fun i Wi =>
      forEach (fun j row =>
        forEach (fun k a => body i j k a) 0%nat row) 0%nat Wi) 0%nat W s
    = Returned (W', s') /\
    (s + length (concat (concat W)) <= s')%nat /\
    (s' <= s + h * length (concat (concat W)))%nat /\
    Forall2 (Forall2 same_shape) W W' /\
    forall i j k b, entry3 W' i j k = Some b ->
                    exists a, entry3 W i j k = Some a /\ P i j k a b.
Proof.
  intros Hbody s.
  destruct (forEach_between (fun Wi => length (concat Wi))
              (fun Wi => (h * length (concat Wi))%nat)
              (fun i Wi Wi' =>
                 Forall2 same_shape Wi Wi' /\
                 forall j k b, entry2 Wi' j k = Some b ->
                               exists a, entry2 Wi j k = Some a /\ P i j k a b)
              (fun i Wi =>
                 forEach (fun j row =>
                   forEach (fun k a => body i j k a) 0%nat row) 0%nat Wi) W 0)
    with (s := s) as (W' & s' & Hrun & Hlo & Hhi & Hind).
  - intros i Wi s0 HWi. cbn [Nat.add].
    destruct (forEach_rows_between h (P i) (body i) Wi) with (s := s0)
      as (Wi' & s1 & Hrun1 & Hlo1 & Hhi1 & Hshape1 & HP1).
    + intros j k a s2 Ha. apply Hbody. unfold entry3. rewrite HWi. exact Ha.
    + exists Wi', s1. auto.
  - rewrite list_sum_scaled in Hhi.
    assert (Hsum : list_sum (map (fun Wi : list (list float) =>
                                    length (concat Wi)) W)
                   = length (concat (concat W))).
    { clear. induction W as [| Wi W IH]; simpl; [reflexivity |].
      rewrite concat_app, length_app, IH. reflexivity. }
    rewrite Hsum in Hlo, Hhi.
    exists W', s'. split; [exact Hrun |]. split; [exact Hlo |].
    split; [exact Hhi |]. split.
    + exact (Indexed_Forall2 _ _ _ _ _ (fun _ _ _ H => proj1 H) Hind).
    + intros i j k b Hb. unfold entry3 in Hb.
      destruct (nth_error W' i) as [Wi' |] eqn:HWi'; [| discriminate].
      destruct (Indexed_nth_error _ _ _ _ Hind i Wi' HWi')
        as (Wi & HWi & _ & HP).
      destruct (HP j k b Hb) as (a & Ha & HPa).
      exists a. unfold entry3. rewrite HWi. auto.
Qed.

(** Arrays of one shape pass or fail the invariant together. *)
Lemma shape_ok_shape sizes :
  forall W B W' B',
    Forall2 (Forall2 same_shape) W W' -> Forall2 same_shape B B' ->
    shape_ok sizes W' B' = shape_ok sizes W B.
Proof.
  assert (Hrows : forall n0 (Wi Wi' : list (list float)),
            Forall2 same_shape Wi Wi' ->
            forallb (fun row => (Z.of_nat (length row) =? n0)%Z) Wi'
            = forallb (fun row => (Z.of_nat (length row) =? n0)%Z) Wi).
  { intros n0 Wi Wi'. induction 1 as [| r r' Wi Wi' Hr _ IH]; simpl;
      [reflexivity |].
    rewrite IH, (Forall2_length Hr). reflexivity. }
  induction sizes as [| n0 rest IH]; intros W B W' B' HW HB.
  - destruct HW, HB; reflexivity.
  - destruct rest as [| n1 rest'].
    + destruct HW, HB; reflexivity.
    + destruct HW as [| Wi Wi' W W' HWi HW]; [destruct HB; reflexivity |].
      destruct HB as [| bi bi' B B' Hbi HB]; [reflexivity |].
      change (shape_ok (n0 :: n1 :: rest') (Wi' :: W') (bi' :: B'))
        with ((Z.of_nat (length Wi') =? n1)%Z
              && forallb (fun row => (Z.of_nat (length row) =? n0)%Z) Wi'
              && (Z.of_nat (length bi') =? n1)%Z
              && shape_ok (n1 :: rest') W' B').
      change (shape_ok (n0 :: n1 :: rest') (Wi :: W) (bi :: B))
        with ((Z.of_nat (length Wi) =? n1)%Z
              && forallb (fun row => (Z.of_nat (length row) =? n0)%Z) Wi
              && (Z.of_nat (length bi) =? n1)%Z
              && shape_ok (n1 :: rest') W B).
      rewrite (IH W B W' B' HW HB), (Hrows n0 Wi Wi' HWi).
      rewrite (Forall2_length HWi), (Forall2_length Hbi). reflexivity.
Qed.

(** ** The draws of the genetic operators *)

Lemma initializeLayer_draws (Math_random : nat -> float) (fanIn fanOut : Z) :
  forall n, exists rows bs,
    initializeLayer Math_random fanIn fanOut n
    = Returned ((rows, bs),
                (n + Z.to_nat fanOut * (Z.to_nat fanIn + 1))%nat) /\
    length (concat rows) = (Z.to_nat fanOut * Z.to_nat fanIn)%nat /\
    length bs = Z.to_nat fanOut.
Proof.
  intros n. unfold initializeLayer.
  match goal with
  | |- context [bind (forEach ?body 0%nat ?js)] =>
      destruct (forEach_between (fun _ => (Z.to_nat fanIn + 1)%nat)
                  (fun _ => (Z.to_nat fanIn + 1)%nat)
                  (fun _ _ (nb : list float * float) =>
                     length (fst nb) = Z.to_nat fanIn)
                  body js 0)
        with (s := n) as (neurons & n1 & Hneurons & Hlo & Hhi & Hind)
  end.
  - intros j a s _. cbn [Nat.add].
    match goal with
    | |- context [bind (forEach ?body 0%nat ?ks)] =>
        destruct (forEach_between (fun _ => 1%nat) (fun _ => 1%nat)
                    (fun _ _ (_ : float) => True) body ks 0)
          with (s := s) as (row & s1 & Hrow & Hlo1 & Hhi1 & Hind1)
    end.
    + intros k b s0 _. eexists. exists (S s0).
      unfold bind, random, ret. split; [reflexivity |]. split; [lia |].
      split; [lia | exact I].
    + rewrite list_sum_const, length_seq in Hlo1, Hhi1.
      eexists. exists (S s1). unfold bind at 1. rewrite Hrow.
      unfold bind, random, ret. split; [reflexivity |]. split; [lia |].
      split; [lia |]. cbn [fst].
      rewrite <- (Forall2_length
                    (Indexed_Forall2 _ (fun _ _ => True) _ _ _
                       (fun _ _ _ _ => I) Hind1)).
      apply length_seq.
  - rewrite list_sum_const, length_seq in Hlo, Hhi.
    assert (Hlen : length neurons = Z.to_nat fanOut).
    { rewrite <- (Forall2_length
                    (Indexed_Forall2 _ (fun _ _ => True) _ _ _
                       (fun _ _ _ _ => I) Hind)).
      apply length_seq. }
    assert (Hrows : Forall (fun nb : list float * float =>
                              length (fst nb) = Z.to_nat fanIn) neurons).
    { clear - Hind. induction Hind; constructor; assumption. }
    exists (map fst neurons), (map snd neurons).
    unfold bind at 1. rewrite Hneurons. unfold ret.
    replace n1 with (n + Z.to_nat fanOut * (Z.to_nat fanIn + 1))%nat by lia.
    split; [reflexivity |]. split; [| rewrite length_map; exact Hlen].
    rewrite <- Hlen. clear - Hrows.
    induction Hrows as [| nb neurons Hnb _ IH]; [reflexivity |].
    cbn [map concat length]. rewrite length_app, IH, Hnb. lia.
Qed.

Lemma initialize_draws (Math_random : nat -> float) (sizes : list Z) :
  forall n, exists W B,
    initialize Math_random sizes n
    = Returned ((W, B), (n + parameter_count sizes)%nat) /\
    (length (concat (concat W)) + length (concat B))%nat
    = parameter_count sizes.
Proof.
  unfold initialize.
  induction sizes as [| fanIn rest IH]; intros n.
  - exists [], []. simpl. rewrite Nat.add_0_r. split; reflexivity.
  - destruct rest as [| fanOut rest'].
    + exists [], []. simpl. rewrite Nat.add_0_r. split; reflexivity.
    + destruct (initializeLayer_draws Math_random fanIn fanOut n)
        as (rows & bs & Hlayer & Hrows & Hbs).
      destruct (IH (n + Z.to_nat fanOut * (Z.to_nat fanIn + 1))%nat)
        as (W & B & Hmore & Hcount).
      exists (rows :: W), (bs :: B).
      change (initializeLayers Math_random (fanIn :: fanOut :: rest'))
        with (bind (initializeLayer Math_random fanIn fanOut)
                (fun layer =>
                   bind (initializeLayers Math_random (fanOut :: rest'))
                     (fun more =>
                        ret (fst layer :: fst more, snd layer :: snd more)))).
      change (parameter_count (fanIn :: fanOut :: rest'))
        with (Z.to_nat fanOut * (Z.to_nat fanIn + 1)
              + parameter_count (fanOut :: rest'))%nat.
      unfold bind at 1. rewrite Hlayer. unfold bind at 1. rewrite Hmore.
      unfold ret. cbn [fst snd]. rewrite Nat.add_assoc.
      split; [reflexivity |].
      cbn [concat]. rewrite concat_app, !length_app, Hrows, Hbs.
      rewrite <- Hcount. lia.
Qed.

(** X15: [new NeuralNetwork({layers})] calls [Math.random] once for each
    parameter it creates and no more often: for every topology, valid or
    not, the constructor returns a network of that topology after
    [parameter_count] draws, and the network has that many weights and
    biases. *)
Theorem constructor_one_draw_per_parameter (Math_random : nat -> float)
    (sizes : list Z) (n : nat) :
  exists G,
    constructor Math_random (Examples.only_layers sizes) n
    = Returned (G, (n + parameter_count sizes)%nat) /\
    layers G = sizes /\
    length (parameters G) = parameter_count sizes.
Proof.
  destruct (initialize_draws Math_random sizes n) as (W & B & Hinit & Hcount).
  eexists. unfold constructor, Examples.only_layers, or_default.
  cbn [o_layers o_activation o_activationName o_weights o_biases].
  unfold bind. rewrite Hinit. unfold ret. split; [reflexivity |].
  split; [reflexivity |].
  unfold parameters. cbn [weights biases fst snd]. rewrite length_app.
  exact Hcount.
Qed.

Lemma mutateElement_draws (Math_random : nat -> float) (rate amount x : float)
    (s : nat) :
  exists y s', mutateElement Math_random rate amount x s = Returned (y, s') /\
               (s + 1 <= s')%nat /\ (s' <= s + 2)%nat /\ True.
Proof.
  unfold mutateElement, bind, random, ret.
  destruct (Math_random s <? rate)%float; eexists; eexists;
    (split; [reflexivity |]); (split; [lia |]); (split; [lia | exact I]).
Qed.

(** X16: [mutate] changes values only: for every rate, amount and
    [Math.random], it returns, keeps the topology, the activation, its name
    and the flag, leaves every weight and bias array with the length it
    had (so a network of the shape of its topology stays one), and calls
    [Math.random] at least once and at most twice for each parameter. *)
Theorem mutate_keeps_shape (Math_random : nat -> float) (G : NeuralNetwork)
    (rate amount : option float) (n : nat) :
  exists G' n',
    mutate Math_random G rate amount n = Returned (G', n') /\
    layers G' = layers G /\ activation G' = activation G /\
    activationName G' = activationName G /\
    useOptimizedOperations G' = useOptimizedOperations G /\
    Forall2 (Forall2 same_shape) (weights G) (weights G') /\
    Forall2 same_shape (biases G) (biases G') /\
    shape_ok (layers G') (weights G') (biases G')
    = shape_ok (layers G) (weights G) (biases G) /\
    (n + length (parameters G) <= n')%nat /\
    (n' <= n + 2 * length (parameters G))%nat.
Proof.
  unfold mutate.
  set (r := or_default rate 0.1%float). set (a := or_default amount 0.5%float).
  destruct (forEach_layers_between 2 (fun _ _ _ _ _ => True)
              (fun _ _ _ w => mutateElement Math_random r a w) (weights G))
    with (s := n) as (W' & n1 & HW & Hlo1 & Hhi1 & HshapeW & _).
  { intros i j k w s _. apply mutateElement_draws. }
  destruct (forEach_rows_between 2 (fun _ _ _ _ => True)
              (fun _ _ b => mutateElement Math_random r a b) (biases G))
    with (s := n1) as (B' & n2 & HB & Hlo2 & Hhi2 & HshapeB & _).
  { intros j k b s _. apply mutateElement_draws. }
  cbv beta in HW, HB.
  exists (with_parameters G W' B'), n2.
  unfold bind at 1. rewrite HW. unfold bind at 1. rewrite HB. unfold ret.
  unfold parameters. rewrite length_app.
  split; [reflexivity |]. split; [reflexivity |]. split; [reflexivity |].
  split; [reflexivity |]. split; [reflexivity |].
  split; [exact HshapeW |]. split; [exact HshapeB |].
  split; [| split; lia].
  cbn [with_parameters layers weights biases].
  apply shape_ok_shape; assumption.
Qed.

Lemma same_shape_entry2 (B B' : list (list float)) i j a :
  Forall2 same_shape B B' -> entry2 B i j = Some a ->
  exists bi' a', nth_error B' i = Some bi' /\ nth_error bi' j = Some a'.
Proof.
  intros HB Ha. unfold entry2 in Ha.
  destruct (nth_error B i) as [bi |] eqn:Hbi; [| discriminate].
  destruct (Forall2_nth_error _ _ _ HB i bi Hbi) as (bi' & Hbi' & Hshape).
  destruct (Forall2_nth_error _ _ _ Hshape j a Ha) as (a' & Ha' & _).
  exists bi', a'. auto.
Qed.

Lemma same_shape_entry3 (W W' : list (list (list float))) i j k a :
  Forall2 (Forall2 same_shape) W W' -> entry3 W i j k = Some a ->
  exists Wi' row' a',
    nth_error W' i = Some Wi' /\ nth_error Wi' j = Some row' /\
    nth_error row' k = Some a'.
Proof.
  intros HW Ha. unfold entry3 in Ha.
  destruct (nth_error W i) as [Wi |] eqn:HWi; [| discriminate].
  destruct (Forall2_nth_error _ _ _ HW i Wi HWi) as (Wi' & HWi' & Hshape).
  destruct (same_shape_entry2 _ _ _ _ _ Hshape Ha)
    as (row' & a' & Hrow' & Ha').
  exists Wi', row', a'. auto.
Qed.

(** X17: the child of [crossover] is made of its parents' genes, place by
    place: for parents of the shape of one common topology and every rate
    and [Math.random], [crossover] returns after exactly one draw for each
    parameter; the child has the topology and the activation of the first
    parent and the shape of that topology, and each of its weights and
    biases is the weight or bias at the same indices of the first parent
    or of the second. *)
Theorem crossover_child_inherits (Math_random : nat -> float)
    (A B : NeuralNetwork) (crossoverRate : option float) (n : nat) :
  well_formed A -> well_formed B -> layers A = layers B ->
  exists child,
    crossover Math_random A B crossoverRate n
    = Returned (child, (n + length (parameters A))%nat) /\
    layers child = layers A /\ activation child = activation A /\
    well_formed child /\
    (forall i j k c, entry3 (weights child) i j k = Some c ->
       entry3 (weights A) i j k = Some c \/
       entry3 (weights B) i j k = Some c) /\
    (forall i j c, entry2 (biases child) i j = Some c ->
       entry2 (biases A) i j = Some c \/ entry2 (biases B) i j = Some c).
Proof.
  intros HA HB Hlayers.
  assert (Hshapes : Forall2 (Forall2 same_shape) (weights A) (weights B) /\
                    Forall2 same_shape (biases A) (biases B)).
  { unfold well_formed in HA, HB. rewrite <- Hlayers in HB.
    exact (shape_ok_same_shape _ _ _ _ _ HA HB). }
  destruct Hshapes as [HshapeW HshapeB].
  unfold crossover.
  set (rate := or_default crossoverRate 0.5%float).
  rewrite <- Hlayers, Nat.eqb_refl, sameSizes_refl. cbn [negb].
  destruct (forEach_layers_between 1
              (fun i j k a c => c = a \/ entry3 (weights B) i j k = Some c)
              (fun i j k w =>
                 bind (random Math_random) (fun r =>
                   if (r <? rate)%float then ret w else weightAt B i j k))
              (weights A))
    with (s := n) as (W' & n1 & HW & Hlo1 & Hhi1 & HW' & Hfrom).
  { intros i j k a s Ha.
    destruct (same_shape_entry3 _ _ _ _ _ _ HshapeW Ha)
      as (oW & orow & b & HoW & Horow & Hb).
    unfold bind, random.
    destruct (Math_random s <? rate)%float.
    - exists a, (S s). unfold ret. split; [reflexivity |]. split; [lia |].
      split; [lia |]. left. reflexivity.
    - exists b, (S s). unfold weightAt, elem, ret. rewrite HoW, Horow.
      rewrite (nth_error_nth _ _ _ Hb). split; [reflexivity |].
      split; [lia |]. split; [lia |]. right.
      unfold entry3, entry2. rewrite HoW, Horow. exact Hb. }
  destruct (forEach_rows_between 1
              (fun i j a c => c = a \/ entry2 (biases B) i j = Some c)
              (fun i j b =>
                 bind (random Math_random) (fun r =>
                   if (r <? rate)%float then ret b else biasAt B i j))
              (biases A))
    with (s := n1) as (B' & n2 & HBrun & Hlo2 & Hhi2 & HB' & Hfromb).
  { intros i j a s Ha.
    destruct (same_shape_entry2 _ _ _ _ _ HshapeB Ha)
      as (obi & b & Hobi & Hb).
    unfold bind, random.
    destruct (Math_random s <? rate)%float.
    - exists a, (S s). unfold ret. split; [reflexivity |]. split; [lia |].
      split; [lia |]. left. reflexivity.
    - exists b, (S s). unfold biasAt, elem, ret. rewrite Hobi.
      rewrite (nth_error_nth _ _ _ Hb). split; [reflexivity |].
      split; [lia |]. split; [lia |]. right.
      unfold entry2. rewrite Hobi. exact Hb. }
  cbv beta in HW, HBrun.
  eexists. unfold bind at 1. rewrite HW. unfold bind at 1. rewrite HBrun.
  unfold constructor, or_default, ret.
  cbn [o_layers o_activation o_activationName o_weights o_biases].
  replace (n + length (parameters A))%nat with n2
    by (unfold parameters; rewrite length_app; lia).
  split; [reflexivity |]. split; [reflexivity |]. split; [reflexivity |].
  split; [| split].
  - unfold well_formed. cbn [layers weights biases].
    rewrite (shape_ok_shape _ _ _ _ _ HW' HB'). exact HA.
  - intros i j k c Hc. cbn [weights] in Hc.
    destruct (Hfrom i j k c Hc) as (a & Ha & [-> | Hother]); auto.
  - intros i j c Hc. cbn [biases] in Hc.
    destruct (Hfromb i j c Hc) as (a & Ha & [-> | Hother]); auto.
Qed.

Lemma crossover_child_inherits_witness :
  exists child,
    crossover Examples.halves Examples.first_parent Examples.second_parent
      None 0
    = Returned (child, (0 + length (parameters Examples.first_parent))%nat) /\
    layers child = layers Examples.first_parent /\
    activation child = activation Examples.first_parent /\
    well_formed child /\
    (forall i j k c, entry3 (weights child) i j k = Some c ->
       entry3 (weights Examples.first_parent) i j k = Some c \/
       entry3 (weights Examples.second_parent) i j k = Some c) /\
    (forall i j c, entry2 (biases child) i j = Some c ->
       entry2 (biases Examples.first_parent) i j = Some c \/
       entry2 (biases Examples.second_parent) i j = Some c).
Proof.
  apply (crossover_child_inherits Examples.halves Examples.first_parent
           Examples.second_parent None 0); reflexivity.
Defined.

(** ** [difference] on a second network with fewer layers *)

Lemma forEach_returned_each {St A B} (body : nat -> A -> M St B) (l : list A) :
  forall i s bs s', forEach body i l s = Returned (bs, s') ->
  forall k a, nth_error l k = Some a ->
  exists s0 b s1, body (i + k)%nat a s0 = Returned (b, s1).
Proof.
  induction l as [| x l IH]; intros i s bs s' Hrun k a Hk;
    [destruct k; discriminate |].
  cbn [forEach] in Hrun. unfold bind at 1 in Hrun.
  destruct (body i x s) as [[b s1] | e] eqn:Hb; [| discriminate].
  unfold bind in Hrun.
  destruct (forEach body (S i) l s1) as [[bs' s2] | e] eqn:Hbs;
    [| discriminate].
  destruct k as [| k]; simpl in Hk.
  - injection Hk as <-. rewrite Nat.add_0_r. eauto.
  - replace (i + S k)%nat with (S i + k)%nat by lia.
    exact (IH _ _ _ _ Hbs k a Hk).
Qed.

(** X18: [difference] throws a [TypeError] whenever the receiver has a
    weight in a layer that the other network does not have: the loops read
    [other.weights[i][j]] with [other.weights[i]] undefined. *)
Theorem difference_missing_layer_throws (A B : NeuralNetwork)
    (i j k : nat) (w : float) :
  entry3 (weights A) i j k = Some w ->
  (length (weights B) <= i)%nat ->
  difference A B = Thrown TypeError.
Proof.
  intros Hw Hi. apply nth_error_None in Hi.
  unfold difference. unfold bind at 1.
  match goal with
  | |- context [forEach ?body 0%nat (weights A) ?s] =>
      destruct (forEach body 0%nat (weights A) s) as [[x s1] | e] eqn:Hrun
  end.
  - exfalso. unfold entry3 in Hw.
    destruct (nth_error (weights A) i) as [Wi |] eqn:HWi; [| discriminate].
    unfold entry2 in Hw.
    destruct (nth_error Wi j) as [row |] eqn:Hrow; [| discriminate].
    destruct (forEach_returned_each _ _ _ _ _ _ Hrun i Wi HWi)
      as (s2 & Wi' & s3 & HrunWi).
    destruct (forEach_returned_each _ _ _ _ _ _ HrunWi j row Hrow)
      as (s4 & row' & s5 & Hrunrow).
    destruct (forEach_returned_each _ _ _ _ _ _ Hrunrow k w Hw)
      as (s6 & d & s7 & Hbody).
    cbn [Nat.add] in Hbody. unfold bind, weightAt in Hbody.
    rewrite Hi in Hbody. discriminate.
  - assert (He : e = TypeError); [| rewrite He; reflexivity].
    revert Hrun. apply forEach_thrown. clear.
    intros i Wi s e. apply forEach_thrown.
    intros j row s0 e0. apply forEach_thrown.
    intros k w s1 e1. unfold bind, weightAt, tally, throw, ret.
    destruct (nth_error (weights B) i) as [oW |];
      [destruct (nth_error oW j) |]; try discriminate;
      intros H; injection H as <-; reflexivity.
Qed.

Lemma difference_missing_layer_throws_witness :
  difference Examples.first_parent
    (with_parameters Examples.first_parent [] []) = Thrown TypeError.
Proof.
  apply (difference_missing_layer_throws Examples.first_parent
           (with_parameters Examples.first_parent [] []) 0 0 0 _ eq_refl).
  simpl. lia.
Defined.
